(** * Product search assistant: retrieval-augmented answer pipeline

    A shallow embedding of [product-search-app]:
    - [chainlit_app.py]: the two nodes [search_products] and
      [generate_answer], the state dictionary [AgentState] they mutate, the
      workflow built by [create_agent_graph];
    - [main.py]: the [/search] endpoint;
    - [models.py]: the [SearchRequest] model and its field constraints.

    The nodes are written in a small state-and-exception monad over the
    state dictionary and a log of the outbound calls (HTTP request, LLM
    invocation).  Whatever the program gets from outside (environment
    variables, the HTTP response, the LLM's reply) comes from an [Env]. *)

From Stdlib Require Import ZArith List String Ascii Bool Lia DecimalString QArith.
From Stdlib Require Import Floats.SpecFloat.
Import ListNotations.

Local Open Scope Z_scope.
Local Open Scope string_scope.

(* ================================================================== *)
(** * The fragment of Python the application relies on *)
(* ================================================================== *)

Module py.

(** An exception: its class and [str(e)].  Only subclasses of [Exception]
    are modelled, which is what [except Exception] catches. *)
Record exn := Exn { exn_class : string; exn_str : string }.

Inductive outcome (A : Type) : Type :=
| Returned (a : A)
| Raised (e : exn).
Arguments Returned {A} a.
Arguments Raised {A} e.

(** What [response.json()] can yield: the values of Python's [json] module.
    A float is an IEEE-754 binary64 in the [spec_float] representation
    (sign, mantissa, exponent), infinities and NaN included: the decoder
    produces them for [1e999] or [Infinity].  A [dict] keeps insertion
    order. *)
#[warnings="-register-all"]
Inductive pyval : Type :=
| PyNone
| PyBool (b : bool)
| PyInt (z : Z)
| PyFloat (f : spec_float)
| PyStr (s : string)
| PyList (l : list pyval)
| PyDict (d : list (string * pyval)).

Definition type_name (v : pyval) : string :=
  match v with
  | PyNone => "NoneType"
  | PyBool _ => "bool"
  | PyInt _ => "int"
  | PyFloat _ => "float"
  | PyStr _ => "str"
  | PyList _ => "list"
  | PyDict _ => "dict"
  end.

Definition TypeError (msg : string) : exn := Exn "TypeError" msg.
Definition ValueError (msg : string) : exn := Exn "ValueError" msg.
Definition OverflowError (msg : string) : exn := Exn "OverflowError" msg.

(** [KeyError(key)]: [str(e)] is the [repr] of the key.  The keys looked up
    by the application are identifiers, whose [repr] is the key between
    single quotes. *)
Definition KeyError (key : string) : exn := Exn "KeyError" ("'" ++ key ++ "'").

(** Truth value of an optional string ([None] and [""] are false). *)
Definition truthy_str (o : option string) : bool :=
  match o with
  | None => false
  | Some EmptyString => false
  | Some _ => true
  end.

Definition float_is_zero (f : spec_float) : bool :=
  match f with
  | S754_zero _ => true
  | _ => false
  end.

(** [bool(v)] *)
Definition truthy (v : pyval) : bool :=
  match v with
  | PyNone => false
  | PyBool b => b
  | PyInt z => negb (z =? 0)%Z
  | PyFloat f => negb (float_is_zero f)
  | PyStr s => negb (String.eqb s "")
  | PyList l => match l with [] => false | _ => true end
  | PyDict d => match d with [] => false | _ => true end
  end.

Fixpoint dict_get (d : list (string * pyval)) (key : string) : option pyval :=
  match d with
  | [] => None
  | (k, v) :: d' => if String.eqb k key then Some v else dict_get d' key
  end.

(** [v[key]] for a string [key] *)
Definition getitem (v : pyval) (key : string) : outcome pyval :=
  match v with
  | PyDict d =>
      match dict_get d key with
      | Some x => Returned x
      | None => Raised (KeyError key)
      end
  | PyList _ =>
      Raised (TypeError "list indices must be integers or slices, not str")
  | PyStr _ =>
      Raised (TypeError "string indices must be integers, not 'str'")
  | _ =>
      Raised (TypeError ("'" ++ type_name v ++ "' object is not subscriptable"))
  end.

(** ** The characters of a string

    A [string] holds the UTF-8 encoding of a Python [str]: a character is
    a byte followed by its continuation bytes (the bytes [10xxxxxx]).
    Python counts, iterates and slices by character. *)

Definition is_continuation (c : ascii) : bool :=
  (128 <=? nat_of_ascii c)%nat && (nat_of_ascii c <? 192)%nat.

(** The continuation bytes [s] starts with, and the characters after
    them. *)
Fixpoint group (s : string) : string * list string :=
  match s with
  | EmptyString => (EmptyString, [])
  | String b rest =>
      let (continuation, characters) := group rest in
      if is_continuation b then (String b continuation, characters)
      else (EmptyString, String b continuation :: characters)
  end.

(** The characters of [s], in order; the first byte always starts one. *)
Definition utf8_chars (s : string) : list string :=
  match s with
  | EmptyString => []
  | String b rest =>
      let (continuation, characters) := group rest in
      String b continuation :: characters
  end.

(** [len(s)] for a [str]: the number of its characters. *)
Definition char_count (s : string) : nat := List.length (utf8_chars s).

(** [len(v)] *)
Definition len (v : pyval) : outcome nat :=
  match v with
  | PyStr s => Returned (char_count s)
  | PyList l => Returned (List.length l)
  | PyDict d => Returned (List.length d)
  | _ =>
      Raised (TypeError ("object of type '" ++ type_name v ++ "' has no len()"))
  end.

Definition chars (s : string) : list pyval := map PyStr (utf8_chars s).

(** The items [for ... in v] goes through: the elements of a list, the keys
    of a dict, the characters of a string. *)
Definition iter (v : pyval) : outcome (list pyval) :=
  match v with
  | PyList l => Returned l
  | PyDict d => Returned (map (fun kv => PyStr (fst kv)) d)
  | PyStr s => Returned (chars s)
  | _ => Raised (TypeError ("'" ++ type_name v ++ "' object is not iterable"))
  end.

Definition str_of_Z (z : Z) : string := NilZero.string_of_int (Z.to_int z).
Definition str_of_nat (n : nat) : string := str_of_Z (Z.of_nat n).

(** [str(v)], as an f-string field [{v}] renders it.  The [repr] of floats
    (shortest round-tripping digits) and of containers is not modelled: it is
    the argument [repr]. *)
Definition str (repr : pyval -> string) (v : pyval) : string :=
  match v with
  | PyStr s => s
  | PyNone => "None"
  | PyBool true => "True"
  | PyBool false => "False"
  | PyInt z => str_of_Z z
  | PyFloat _ | PyList _ | PyDict _ => repr v
  end.

(** ** The format specification [.2f] *)

Definition sign_str (s : bool) : string := if s then "-" else "".

Definition digit (n : Z) : ascii := ascii_of_nat (48 + Z.to_nat n).

Definition two_digits (n : Z) : string :=
  String (digit (n / 10)) (String (digit (n mod 10)) EmptyString).

(** [num / den] rounded to the nearest integer, ties to even. *)
Definition round_half_even (num den : Z) : Z :=
  let q := num / den in
  let r := num mod den in
  match (2 * r ?= den)%Z with
  | Lt => q
  | Gt => q + 1
  | Eq => if Z.even q then q else q + 1
  end.

(** [m * 2^e] in hundredths, correctly rounded. *)
Definition hundredths (m : positive) (e : Z) : Z :=
  if (0 <=? e)%Z then Zpos m * 2 ^ e * 100
  else round_half_even (Zpos m * 100) (2 ^ (- e)).

(** [format(f, ".2f")] for a float: the decimal expansion of the exact
    binary value, correctly rounded (half to even) to two places; the sign
    is kept on zero; infinities and NaN have no digits. *)
Definition format_2f (f : spec_float) : string :=
  match f with
  | S754_zero s => sign_str s ++ "0.00"
  | S754_infinity s => sign_str s ++ "inf"
  | S754_nan => "nan"
  | S754_finite s m e =>
      let h := hundredths m e in
      sign_str s ++ str_of_Z (h / 100) ++ "." ++ two_digits (h mod 100)
  end.

(** [float(z)]: the nearest binary64, [OverflowError] beyond the range. *)
Definition float_of_int (z : Z) : outcome spec_float :=
  match binary_normalize 53 1024 z 0 false with
  | S754_infinity _ =>
      Raised (OverflowError "int too large to convert to float")
  | f => Returned f
  end.

(** [format(v, ".2f")], the field [{v:.2f}] of an f-string *)
Definition format_spec_2f (v : pyval) : outcome string :=
  match v with
  | PyFloat f => Returned (format_2f f)
  | PyInt z =>
      match float_of_int z with
      | Returned f => Returned (format_2f f)
      | Raised e => Raised e
      end
  | PyBool b => Returned (if b then "1.00" else "0.00")
  | PyStr _ =>
      Raised (ValueError "Unknown format code 'f' for object of type 'str'")
  | _ =>
      Raised (TypeError ("unsupported format string passed to "
                         ++ type_name v ++ ".__format__"))
  end.

(** [sep.join(parts)] *)
Fixpoint join (sep : string) (parts : list string) : string :=
  match parts with
  | [] => ""
  | [p] => p
  | p :: rest => p ++ sep ++ join sep rest
  end.

End py.

Import py.

(* ================================================================== *)
(** * chainlit_app.py *)
(* ================================================================== *)

Module chainlit_app.

(** State that flows through the graph: the dictionary both nodes mutate.
    [search_results] holds whatever [data["results"]] was: nothing checks
    it against [List[dict]]. *)
Record AgentState := {
  query : string;
  search_results : pyval;
  answer : string;
  error : option string
}.

(** The JSON body of the search request. *)
Record SearchBody := { body_query : string; body_size : Z }.

(** What the application reads of an [httpx.Response]. *)
Record Response := { status_code : Z; json : outcome pyval }.

Record ChatGroq := { model : string; temperature : Q; api_key : string }.

(** The calls that leave the process. *)
Inductive call :=
| HttpPost (url : string) (body : SearchBody) (timeout : Q)
| LlmInvoke (llm : ChatGroq) (prompt : string).

(** The outside world: environment variables, the server behind
    [client.post], the model behind [llm.invoke(prompt).content], and the
    interpreter's [repr] (see [py.str]). *)
Record Env := {
  getenv : string -> option string;
  post : string -> SearchBody -> Q -> outcome Response;
  invoke : ChatGroq -> string -> outcome string;
  repr : pyval -> string
}.

(** ** The monad of the nodes

    A computation runs on the state dictionary and the log of calls, and
    returns or raises; what it wrote before raising stays written. *)

Record store := { state : AgentState; calls : list call }.

Definition M (A : Type) : Type := store -> outcome A * store.

Definition ret {A} (a : A) : M A := fun st => (Returned a, st).

Definition bind {A B} (m : M A) (k : A -> M B) : M B :=
  fun st =>
    match m st with
    | (Returned a, st') => k a st'
    | (Raised e, st') => (Raised e, st')
    end.

Definition raise {A} (e : exn) : M A := fun st => (Raised e, st).

Definition lift {A} (o : outcome A) : M A := fun st => (o, st).

(** [try: body / except Exception as e: handler e] *)
Definition try_except {A} (body : M A) (handler : exn -> M A) : M A :=
  fun st =>
    match body st with
    | (Raised e, st') => handler e st'
    | r => r
    end.

Declare Scope py_scope.
Delimit Scope py_scope with py.
Notation "x <- m ;; k" := (bind m (fun x => k))
  (at level 100, m at next level, right associativity) : py_scope.
Notation "m ;; k" := (bind m (fun _ => k))
  (at level 100, right associativity) : py_scope.

Definition get : M AgentState := fun st => (Returned (state st), st).

Definition modify (f : AgentState -> AgentState) : M unit :=
  fun st => (Returned tt, {| state := f (state st); calls := calls st |}).

(** The dictionary with one key rebound. *)
Definition with_search_results (s : AgentState) (v : pyval) : AgentState :=
  {| query := query s; search_results := v; answer := answer s;
     error := error s |}.

Definition with_error (s : AgentState) (v : option string) : AgentState :=
  {| query := query s; search_results := search_results s;
     answer := answer s; error := v |}.

Definition with_answer (s : AgentState) (v : string) : AgentState :=
  {| query := query s; search_results := search_results s; answer := v;
     error := error s |}.

(** [state["search_results"] = v], [state["error"] = v],
    [state["answer"] = v] *)
Definition set_search_results (v : pyval) : M unit :=
  modify (fun s => with_search_results s v).

Definition set_error (v : option string) : M unit :=
  modify (fun s => with_error s v).

Definition set_answer (v : string) : M unit :=
  modify (fun s => with_answer s v).

Definition log_call (c : call) : M unit :=
  fun st => (Returned tt, {| state := state st; calls := (calls st ++ [c])%list |}).

(** ** get_llm *)

Definition get_llm (env : Env) : outcome ChatGroq :=
  let api_key := getenv env "GROQ_API_KEY" in
  if negb (truthy_str api_key) then
    Raised (ValueError "GROQ_API_KEY not found in environment variables")
  else
    match api_key with
    | Some key =>
        Returned {| model := "llama-3.3-70b-versatile";
                    temperature := 7 # 10;
                    api_key := key |}
    | None =>
        Raised (ValueError "GROQ_API_KEY not found in environment variables")
    end.

(** ** Node 1: search_products *)

Definition client_post (env : Env) (url : string) (body : SearchBody)
    (timeout : Q) : M Response :=
  (log_call (HttpPost url body timeout) ;;
   lift (post env url body timeout))%py.

(** [os.getenv("SEARCH_API_URL", "http://localhost:8000")] *)
Definition search_api_url (env : Env) : string :=
  match getenv env "SEARCH_API_URL" with
  | Some url => url
  | None => "http://localhost:8000"
  end.

Definition search_products (env : Env) : M AgentState :=
  (state <- get ;;
   let query := query state in
   let api_url := search_api_url env in
   try_except
     (response <- client_post env (api_url ++ "/search")
                    {| body_query := query; body_size := 5 |} (10 # 1) ;;
      if (status_code response =? 200)%Z then
        data <- lift (json response) ;;
        results <- lift (getitem data "results") ;;
        set_search_results results ;;
        (* the arguments of the log line: len(data['results']), data['took_ms'] *)
        logged <- lift (getitem data "results") ;;
        _ <- lift (len logged) ;;
        _ <- lift (getitem data "took_ms") ;;
        ret tt
      else
        set_error (Some ("Search failed with status "
                         ++ str_of_Z (status_code response))))
     (fun e => set_error (Some ("Search error: " ++ exn_str e))) ;;
   get)%py.

(** ** Node 2: generate_answer *)

Definition nl : string := String (ascii_of_nat 10) EmptyString.

Definition obind {A B} (o : outcome A) (k : A -> outcome B) : outcome B :=
  match o with
  | Returned a => k a
  | Raised e => Raised e
  end.

(** One element of the list comprehension (lines 94-97), [i] counted from 0
    by [enumerate]. *)
Definition format_record (repr : pyval -> string) (i : nat) (result : pyval)
    : outcome string :=
  obind (getitem result "title") (fun title =>
  obind (getitem result "description") (fun description =>
  obind (getitem result "score") (fun score =>
  obind (format_spec_2f score) (fun score_2f =>
  Returned ("Product " ++ str_of_nat (i + 1) ++ ":" ++ nl
            ++ "Title: " ++ str repr title ++ nl
            ++ "Description: " ++ str repr description ++ nl
            ++ "Relevance Score: " ++ score_2f))))).

Fixpoint format_records (repr : pyval -> string) (i : nat)
    (items : list pyval) : outcome (list string) :=
  match items with
  | [] => Returned []
  | result :: rest =>
      obind (format_record repr i result) (fun r =>
      obind (format_records repr (S i) rest) (fun rs =>
      Returned (r :: rs)))
  end.

(** The context expression (lines 93-99):
    ["\n\n".join([... for i, result in enumerate(search_results)])] *)
Definition format_context (repr : pyval -> string) (search_results : pyval)
    : outcome string :=
  obind (iter search_results) (fun items =>
  obind (format_records repr 0 items) (fun records =>
  Returned (join (nl ++ nl) records))).

Definition make_prompt (context query : string) : string :=
  "You are a helpful product search assistant. Based on the search results below, answer the user's question accurately." ++ nl
  ++ nl
  ++ "Search Results:" ++ nl
  ++ context ++ nl
  ++ nl
  ++ "User Question: " ++ query ++ nl
  ++ nl
  ++ "Instructions:" ++ nl
  ++ "- Provide a concise answer" ++ nl
  ++ "- Reference specific products from the search results" ++ nl
  ++ "- If multiple products match, compare them briefly" ++ nl
  ++ "- Be conversational" ++ nl
  ++ "- If no products perfectly match, suggest the closest alternatives" ++ nl
  ++ nl
  ++ "Answer:".

Definition no_match_message : string :=
  "I couldn't find any products matching your query. Could you try rephrasing?".

Definition llm_invoke (env : Env) (llm : ChatGroq) (prompt : string)
    : M string :=
  (log_call (LlmInvoke llm prompt) ;;
   lift (invoke env llm prompt))%py.

(** [f"{state['error']}"] *)
Definition str_error (o : option string) : string :=
  match o with
  | Some s => s
  | None => "None"
  end.

Definition generate_answer (env : Env) : M AgentState :=
  (state <- get ;;
   if truthy_str (error state) then
     set_answer ("Sorry, I encountered an error: " ++ str_error (error state)) ;;
     get
   else
     let search_results := search_results state in
     let query := query state in
     if negb (truthy search_results) then
       set_answer no_match_message ;;
       get
     else
       (* the argument of the log line: len(search_results) *)
       _ <- lift (len search_results) ;;
       context <- lift (format_context (repr env) search_results) ;;
       let prompt := make_prompt context query in
       try_except
         (llm <- lift (get_llm env) ;;
          content <- llm_invoke env llm prompt ;;
          set_answer content)
         (fun e =>
            set_answer ("Sorry, I couldn't generate a response: " ++ exn_str e)) ;;
       get)%py.

(** ** The workflow *)

Record StateGraph := {
  nodes : list (string * M AgentState);
  entry_point : string;
  edges : list (string * string)
}.

Definition END : string := "__end__".

Definition create_agent_graph (env : Env) : StateGraph :=
  {| nodes := [("search", search_products env);
               ("generate", generate_answer env)];
     entry_point := "search";
     edges := [("search", "generate"); ("generate", END)] |}.

Fixpoint lookup {A} (key : string) (l : list (string * A)) : option A :=
  match l with
  | [] => None
  | (k, a) :: l' => if String.eqb k key then Some a else lookup key l'
  end.

Definition GraphRecursionError : exn :=
  Exn "GraphRecursionError" "Recursion limit reached without hitting a stop condition".

(** The compiled graph runs the node it stands on, then follows the node's
    edge, until [END]; [limit] bounds the number of steps. *)
Fixpoint walk (g : StateGraph) (limit : nat) (current : string)
    : M AgentState :=
  if String.eqb current END then get
  else
    match limit with
    | O => raise GraphRecursionError
    | S limit' =>
        match lookup current (nodes g), lookup current (edges g) with
        | Some node, Some next => (node ;; walk g limit' next)%py
        | _, _ => raise (ValueError ("Unknown node " ++ current))
        end
    end.

Definition recursion_limit : nat := 25.

(** [await agent.ainvoke(initial_state)]: the final state or the exception,
    and the calls made. *)
Definition ainvoke (g : StateGraph) (initial_state : AgentState)
    : outcome AgentState * list call :=
  let (o, st) := walk g recursion_limit (entry_point g)
                   {| state := initial_state; calls := [] |} in
  (o, calls st).

(** The initial state [main] builds from the user's message. *)
Definition initial_state (content : string) : AgentState :=
  {| query := content; search_results := PyList []; answer := "";
     error := None |}.

Definition run (env : Env) (content : string)
    : outcome AgentState * list call :=
  ainvoke (create_agent_graph env) (initial_state content).

(** A node run on its own, from a state and no call made yet. *)
Definition exec {A} (m : M A) (s : AgentState) : outcome A * store :=
  m {| state := s; calls := [] |}.

(** ** What is observed of a run *)

(** The state the retrieval stage leaves for the generation stage. *)
Definition retrieved (env : Env) (content : string) : AgentState :=
  state (snd (exec (search_products env) (initial_state content))).

(** The one request the retrieval stage sends for the query of [s]. *)
Definition search_request (env : Env) (s : AgentState) : call :=
  HttpPost (search_api_url env ++ "/search")
    {| body_query := query s; body_size := 5 |} (10 # 1).

Definition is_llm_invoke (c : call) : bool :=
  match c with
  | LlmInvoke _ _ => true
  | HttpPost _ _ _ => false
  end.

(** How many times the generation backend was called. *)
Definition backend_calls (cs : list call) : nat :=
  List.length (filter is_llm_invoke cs).

Definition backend_invoked (cs : list call) : Prop :=
  backend_calls cs <> 0%nat.


End chainlit_app.

(* ================================================================== *)
(** * models.py *)
(* ================================================================== *)

Module models.

(** A field of the request body as the validator meets it: absent, [null],
    or a value of the field's type.  (A value of another type is a type
    error of the validator and is not modelled.) *)
Inductive field (A : Type) : Type :=
| Omitted
| Null
| Given (a : A).
Arguments Omitted {A}.
Arguments Null {A}.
Arguments Given {A} a.

Inductive ValidationError :=
| missing (loc : string)
| string_type (loc : string)
| string_too_short (loc : string) (min_length : nat)
| string_too_long (loc : string) (max_length : nat)
| greater_than_equal (loc : string) (ge : Z)
| less_than_equal (loc : string) (le : Z).

Module SearchRequest.

(** The body before validation. *)
Record raw := { raw_query : field string; raw_size : field Z }.

(** Request model for search endpoints *)
Record t := { query : string; size : option Z }.

(** [query: str = Field(..., min_length=1, max_length=500)]: the bounds
    count characters. *)
Definition validate_query (f : field string)
    : list ValidationError + string :=
  match f with
  | Omitted => inl [missing "query"]
  | Null => inl [string_type "query"]
  | Given s =>
      if (char_count s <? 1)%nat then inl [string_too_short "query" 1%nat]
      else if (500 <? char_count s)%nat then
        inl [string_too_long "query" 500%nat]
      else inr s
  end.

(** [size: Optional[int] = Field(default=10, ge=1, le=100)]: the default is
    taken as it is, [None] is a value of [Optional[int]], an integer has to
    meet the two bounds. *)
Definition validate_size (f : field Z) : list ValidationError + option Z :=
  match f with
  | Omitted => inr (Some 10)
  | Null => inr None
  | Given n =>
      if (n <? 1)%Z then inl [greater_than_equal "size" 1]
      else if (100 <? n)%Z then inl [less_than_equal "size" 100]
      else inr (Some n)
  end.

(** Validation reports the errors of all fields. *)
Definition validate (r : raw) : list ValidationError + t :=
  match validate_query (raw_query r), validate_size (raw_size r) with
  | inr q, inr s => inr {| query := q; size := s |}
  | inl eq, inr _ => inl eq
  | inr _, inl es => inl es
  | inl eq, inl es => inl (eq ++ es)%list
  end.

End SearchRequest.

(** Single product search result *)
Record Product := {
  id : Z;
  title : string;
  description : string;
  score : spec_float
}.

(** Response model for search endpoints *)
Record SearchResponse := {
  query : string;
  total_hits : Z;
  results : list Product;
  took_ms : Z
}.

(** The JSON documents of the models, as the client decodes them. *)
Definition Product_json (p : Product) : pyval :=
  PyDict [("id", PyInt (id p)); ("title", PyStr (title p));
          ("description", PyStr (description p));
          ("score", PyFloat (score p))].

Definition SearchResponse_json (r : SearchResponse) : pyval :=
  PyDict [("query", PyStr (query r)); ("total_hits", PyInt (total_hits r));
          ("results", PyList (map Product_json (results r)));
          ("took_ms", PyInt (took_ms r))].

End models.

(* ================================================================== *)
(** * elasticsearch_client.py and main.py *)
(* ================================================================== *)

Module elasticsearch_client.

(** The cluster behind the client: what [ping] and [indices.exists] answer
    (or raise), and the documents of the index. *)
Record Elasticsearch := {
  ping : outcome bool;
  indices_exists : outcome bool;
  documents : list models.Product
}.

Inductive es_call := Ping | IndicesExists.

Definition is_connected (es : Elasticsearch) : bool * list es_call :=
  (match ping es with Returned b => b | Raised _ => false end, [Ping]).

Definition index_exists (es : Elasticsearch) : bool * list es_call :=
  (match indices_exists es with Returned b => b | Raised _ => false end,
   [IndicesExists]).

End elasticsearch_client.

Module main.

Import elasticsearch_client.

Definition elasticsearch_index : string := "amazon_products".

(** What a handler hands back to the framework. *)
Inductive handled :=
| Respond (r : models.SearchResponse)
| HTTPException (status_code : Z) (detail : string).

(** [POST /search]: performs lexical/keyword search *)
Definition search_products (es : Elasticsearch)
    (request : models.SearchRequest.t) : handled * list es_call :=
  let (connected, c1) := is_connected es in
  if negb connected then
    (HTTPException 503 "Elasticsearch is not available", c1)
  else
    let (exists_, c2) := index_exists es in
    if negb exists_ then
      (HTTPException 503
         ("Index '" ++ elasticsearch_index ++ "' does not exist. "
          ++ "Please run indexing script first."),
       (c1 ++ c2)%list)
    else
      let products := [] in
      (Respond {| models.query := models.SearchRequest.query request;
                  models.total_hits := 0;
                  models.results := products;
                  models.took_ms := 0 |},
       (c1 ++ c2)%list).

(** The route: the framework validates the body against [SearchRequest]
    and answers 422 itself when validation fails; only a valid request
    reaches the handler. *)
Definition post_search (es : Elasticsearch) (body : models.SearchRequest.raw)
    : chainlit_app.Response * list es_call :=
  match models.SearchRequest.validate body with
  | inl errors =>
      ({| chainlit_app.status_code := 422;
          chainlit_app.json :=
            Returned (PyDict [("detail",
                               PyList (map (fun _ => PyDict []) errors))]) |},
       [])
  | inr request =>
      match search_products es request with
      | (Respond r, cs) =>
          ({| chainlit_app.status_code := 200;
              chainlit_app.json := Returned (models.SearchResponse_json r) |},
           cs)
      | (HTTPException status detail, cs) =>
          ({| chainlit_app.status_code := status;
              chainlit_app.json :=
                Returned (PyDict [("detail", PyStr detail)]) |},
           cs)
      end
  end.

(** The assistant deployed against this API: every request of the client
    reaches [post_search] and gets its response. *)
Definition deployed (es : Elasticsearch) (env : chainlit_app.Env)
    : chainlit_app.Env :=
  {| chainlit_app.getenv := chainlit_app.getenv env;
     chainlit_app.post := fun _ body _ =>
       Returned (fst (post_search es
         {| models.SearchRequest.raw_query :=
              models.Given (chainlit_app.body_query body);
            models.SearchRequest.raw_size :=
              models.Given (chainlit_app.body_size body) |}));
     chainlit_app.invoke := chainlit_app.invoke env;
     chainlit_app.repr := chainlit_app.repr env |}.

End main.

(* ================================================================== *)
(** * The specification's wording, to compare the code with *)
(* ================================================================== *)

Module spec.

Import chainlit_app.

(** The generation backend is invoked if and only if retrieval succeeded
    with at least one candidate. *)
Definition generation_iff_retrieval (env : Env) (content : string) : Prop :=
  backend_invoked (snd (run env content)) <->
  (error (retrieved env content) = None
   /\ truthy (search_results (retrieved env content)) = true).

(** A query out of bounds is rejected by request validation before the
    pipeline runs: nothing is sent, and no error is recorded in the
    pipeline. *)
Definition rejected_before_the_pipeline (env : Env) (content : string)
    : Prop :=
  (char_count content < 1 \/ 500 < char_count content)%nat ->
  snd (run env content) = []
  /\ error (retrieved env content) = None.

(** Blocks one after the other in the order given, a blank line (two line
    feeds) between two of them. *)
Fixpoint blank_line_separated (blocks : list string) : string :=
  match blocks with
  | [] => EmptyString
  | [b] => b
  | b :: rest =>
      b ++ String (ascii_of_nat 10)
             (String (ascii_of_nat 10) (blank_line_separated rest))
  end.

(** The block of one candidate: its position, then its title, its
    description and its score, each on a line of its own. *)
Definition block (repr : pyval -> string) (position : nat)
    (title description : pyval) (score_2f : string) : string :=
  "Product " ++ str_of_nat position ++ ":"
  ++ String (ascii_of_nat 10)
       ("Title: " ++ str repr title
        ++ String (ascii_of_nat 10)
             ("Description: " ++ str repr description
              ++ String (ascii_of_nat 10)
                   ("Relevance Score: " ++ score_2f))).

(** The kinds of retrieval error of the error taxonomy. *)
Inductive RetrievalError := Timeout | Unavailable | Malformed.

Definition RetrievalError_name (k : RetrievalError) : string :=
  match k with
  | Timeout => "Timeout"
  | Unavailable => "Unavailable"
  | Malformed => "Malformed"
  end.

(** [needle] occurs in [text]. *)
Fixpoint contains (needle text : string) : bool :=
  String.prefix needle text
  || match text with
     | EmptyString => false
     | String _ rest => contains needle rest
     end.

(** The kind a recorded error names, when it names one (anywhere in its
    text). *)
Definition recorded_kind (e : option string) : option RetrievalError :=
  match e with
  | None => None
  | Some text =>
      if contains (RetrievalError_name Timeout) text then Some Timeout
      else if contains (RetrievalError_name Unavailable) text then
        Some Unavailable
      else if contains (RetrievalError_name Malformed) text then
        Some Malformed
      else None
  end.

(** Every failure of a retrieval call is recorded on the state as one of
    the kinds. *)
Definition failures_classified (env : Env) (content : string) : Prop :=
  error (retrieved env content) <> None ->
  exists k, recorded_kind (error (retrieved env content)) = Some k.

(** The Context Formatter: a fixed-shape record per candidate (1-based
    position, title, description, score), the records separated by a blank
    line, in the order of the retrieval set. *)
Definition record (position : nat) (c : models.Product) : string :=
  "Product " ++ str_of_nat position ++ ":" ++ nl
  ++ "Title: " ++ models.title c ++ nl
  ++ "Description: " ++ models.description c ++ nl
  ++ "Relevance Score: " ++ format_2f (models.score c).

Fixpoint records (position : nat) (retrieval : list models.Product)
    : list string :=
  match retrieval with
  | [] => []
  | c :: rest => record position c :: records (S position) rest
  end.

Definition format (retrieval : list models.Product) : string :=
  join (nl ++ nl) (records 1 retrieval).

Definition is_digit (c : ascii) : bool :=
  (48 <=? nat_of_ascii c)%nat && (nat_of_ascii c <=? 57)%nat.

(** Digits, a point, and exactly two digits up to the end of the string. *)
Fixpoint digits_point_2 (s : string) : bool :=
  match s with
  | EmptyString => false
  | String c s' =>
      if Ascii.eqb c "." then
        match s' with
        | String d1 (String d2 EmptyString) => is_digit d1 && is_digit d2
        | _ => false
        end
      else is_digit c && digits_point_2 s'
  end.

(** A number written with exactly two decimal places: an optional minus
    sign, at least one digit, a point, two digits. *)
Definition two_decimal_places (s : string) : bool :=
  let unsigned :=
    match s with
    | String c s' => if Ascii.eqb c "-" then s' else s
    | EmptyString => s
    end in
  match unsigned with
  | String c _ => is_digit c && digits_point_2 unsigned
  | EmptyString => false
  end.

(** Every score is rendered with exactly two decimal places. *)
Definition scores_two_decimals (retrieval : list models.Product) : Prop :=
  forall c, In c retrieval ->
            two_decimal_places (format_2f (models.score c)) = true.

(** The Context Formatter renders every retrieval set as [format] does,
    every score with two decimal places. *)
Definition context_formatter (repr : pyval -> string)
    (retrieval : list models.Product) : Prop :=
  format_context repr (PyList (map models.Product_json retrieval))
  = Returned (format retrieval)
  /\ scores_two_decimals retrieval.

Fixpoint all_digits (s : string) : bool :=
  match s with
  | EmptyString => true
  | String c s' => is_digit c && all_digits s'
  end.

(** A float that is a number: not an infinity, not NaN. *)
Definition is_finite (f : spec_float) : bool :=
  match f with
  | S754_zero _ | S754_finite _ _ _ => true
  | S754_infinity _ | S754_nan => false
  end.

End spec.

(* ================================================================== *)
(** * Sample data *)
(* ================================================================== *)

Module samples.

Import chainlit_app.

(** The float [m * 2^e]. *)
Definition float (m e : Z) : spec_float := binary_normalize 53 1024 m e false.

Definition headphones : models.Product :=
  {| models.id := 123;
     models.title := "Sony WH-1000XM5 Wireless Headphones";
     models.description := "Premium noise-canceling wireless headphones";
     models.score := float 61 (-2) |}.

Definition earbuds : models.Product :=
  {| models.id := 77;
     models.title := "Bluetooth Earbuds";
     models.description := "Compact wireless earbuds";
     models.score := float 39 (-2) |}.

(** A candidate whose score overflowed to infinity ([1e999] in the JSON). *)
Definition overflowed : models.Product :=
  {| models.id := 5;
     models.title := "Studio Monitor Headphones";
     models.description := "Closed-back headphones";
     models.score := S754_infinity false |}.

Definition ok_body (results : list pyval) : pyval :=
  PyDict [("query", PyStr "wireless headphones");
          ("total_hits", PyInt (Z.of_nat (List.length results)));
          ("results", PyList results);
          ("took_ms", PyInt 42)].

Definition respond (status : Z) (body : pyval) : outcome Response :=
  Returned {| status_code := status; json := Returned body |}.

Definition simple_repr (v : pyval) : string := "<" ++ type_name v ++ ">".

(** An environment with credential [key], a search API answering
    [response] and a model answering [reply]. *)
Definition world (key : option string) (response : outcome Response)
    (reply : outcome string) : Env :=
  {| getenv := fun name =>
       if String.eqb name "GROQ_API_KEY" then key else None;
     post := fun _ _ _ => response;
     invoke := fun _ _ => reply;
     repr := simple_repr |}.

Definition found : outcome Response :=
  respond 200 (ok_body (map models.Product_json [headphones; earbuds])).

(** Candidates found, no credential configured. *)
Definition no_credential : Env :=
  world None found (Returned "The Sony WH-1000XM5 is the closest match.").

(** Candidates found, credential configured, the model answers. *)
Definition all_well : Env :=
  world (Some "gsk_test") found
    (Returned "The Sony WH-1000XM5 is the closest match.").

(** Candidates found, the backend is unreachable. *)
Definition backend_down : Env :=
  world (Some "gsk_test") found (Raised (Exn "APIConnectionError" "Connection error.")).

(** The index answers with no hit. *)
Definition nothing_found : Env :=
  world (Some "gsk_test") (respond 200 (ok_body []))
    (Returned "unused").

(** The search API answers 503. *)
Definition unavailable : Env :=
  world (Some "gsk_test")
    (respond 503 (PyDict [("detail", PyStr "Elasticsearch is not available")]))
    (Returned "unused").

(** The request times out. *)
Definition timed_out : Env :=
  world (Some "gsk_test") (Raised (Exn "ReadTimeout" "")) (Returned "unused").

(** An index holding a matching document, reachable. *)
Definition cluster : elasticsearch_client.Elasticsearch :=
  {| elasticsearch_client.ping := Returned true;
     elasticsearch_client.indices_exists := Returned true;
     elasticsearch_client.documents := [headphones; earbuds] |}.

(** A request whose query is empty. *)
Definition empty_query : models.SearchRequest.raw :=
  {| models.SearchRequest.raw_query := models.Given "";
     models.SearchRequest.raw_size := models.Given 5 |}.

(** The client the application builds with the credential ["gsk_test"]. *)
Definition llm : ChatGroq :=
  {| model := "llama-3.3-70b-versatile"; temperature := 7 # 10;
     api_key := "gsk_test" |}.

(** The state the retrieval stage leaves when [found] came back, and the
    same retrieval set under another question and an earlier answer. *)
Definition first_turn : AgentState :=
  {| query := "wireless headphones";
     search_results := PyList (map models.Product_json [headphones; earbuds]);
     answer := ""; error := None |}.

Definition second_turn : AgentState :=
  {| query := "which one is lighter?";
     search_results := PyList (map models.Product_json [headphones; earbuds]);
     answer := "The Sony WH-1000XM5 is the closest match."; error := None |}.

(** The index answers with a candidate that has no field at all. *)
Definition malformed_candidate : Env :=
  world (Some "gsk_test") (respond 200 (ok_body [PyDict []]))
    (Returned "unused").

End samples.

(* ================================================================== *)
(** * chainlit_app.py: the chat handlers *)
(* ================================================================== *)

Module chainlit_events.

Import chainlit_app.

(** [cl.Message(content=..., author=...)]; without [author] the message
    goes out under the application's own name. *)
Record Message := { content : string; author : option string }.

(** What the user interface is asked to do. *)
Inductive ui_event :=
| Send (m : Message)
| Remove (m : Message).

(** The key ["agent"] of [cl.user_session]. *)
Definition session : Type := option StateGraph.

Definition welcome : string :=
  "👋 **Welcome to ProductIQ AI Assistant!**" ++ nl ++ nl
  ++ "I can help you find products from our catalog of 1,000 items." ++ nl ++ nl
  ++ "**Try asking:**" ++ nl
  ++ "- What wireless headphones do you have?" ++ nl
  ++ "- Show me running shoes" ++ nl
  ++ "- I need a laptop for gaming" ++ nl
  ++ "- What's the best coffee maker?" ++ nl ++ nl
  ++ "Go ahead, ask me anything!".

(** [@cl.on_chat_start]: the session after it, and what it shows. *)
Definition start (env : Env) : session * list ui_event :=
  let agent := create_agent_graph env in
  (Some agent, [Send {| content := welcome; author := None |}]).

Definition thinking_msg : Message :=
  {| content := "🔍 Searching products..."; author := None |}.

Definition AttributeError (msg : string) : exn := Exn "AttributeError" msg.

(** One line of the result list (line 205), [i] counted from 1. *)
Definition results_line (repr : pyval -> string) (i : nat) (product : pyval)
    : outcome string :=
  obind (getitem product "title") (fun title =>
  obind (getitem product "score") (fun score =>
  obind (format_spec_2f score) (fun score_2f =>
  Returned (str_of_nat i ++ ". " ++ str repr title
            ++ " (Score: " ++ score_2f ++ ")" ++ nl)))).

(** The loop of lines 204-205: [results_text += ...] for each product. *)
Fixpoint results_lines (repr : pyval -> string) (i : nat)
    (products : list pyval) (results_text : string) : outcome string :=
  match products with
  | [] => Returned results_text
  | product :: rest =>
      obind (results_line repr i product) (fun line =>
      results_lines repr (S i) rest (results_text ++ line))
  end.

(** Lines 203-205: the text of the result list. *)
Definition results_text (repr : pyval -> string) (search_results : pyval)
    : outcome string :=
  obind (len search_results) (fun n =>
  obind (iter search_results) (fun products =>
  results_lines repr 1 products
    ("**Found " ++ str_of_nat n ++ " relevant products**" ++ nl ++ nl))).

Definition error_notice (e : exn) : Message :=
  {| content :=
       "❌ An error occurred: " ++ exn_str e ++ nl ++ nl
       ++ "Please make sure:" ++ nl
       ++ "1. FastAPI server is running (http://localhost:8000)" ++ nl
       ++ "2. GROQ_API_KEY is set in your environment";
     author := None |}.

(** [@cl.on_message]: what the user interface is asked to do, in order, and
    the calls that left the process.  [shown] is what was done before the
    exception [e] reached the handler's [except]. *)
Definition main (env : Env) (user_session : session) (content : string)
    : list ui_event * list call :=
  let agent := user_session in
  let except_ (shown : list ui_event) (e : exn) : list ui_event :=
    (shown ++ [Remove thinking_msg; Send (error_notice e)])%list in
  let shown := [Send thinking_msg] in
  match agent with
  | None =>
      (except_ shown
         (AttributeError "'NoneType' object has no attribute 'ainvoke'"),
       [])
  | Some agent =>
      match ainvoke agent (initial_state content) with
      | (Raised e, cs) => (except_ shown e, cs)
      | (Returned result, cs) =>
          let shown := (shown ++ [Remove thinking_msg])%list in
          if truthy (search_results result) then
            match results_text (repr env) (search_results result) with
            | Raised e => (except_ shown e, cs)
            | Returned text =>
                ((shown
                  ++ [Send {| content := text;
                              author := Some "Search Engine" |};
                      Send {| content := answer result;
                              author := Some "AI Assistant" |}])%list,
                 cs)
            end
          else
            ((shown ++ [Send {| content := answer result;
                                author := Some "AI Assistant" |}])%list,
             cs)
      end
  end.

End chainlit_events.

(* ================================================================== *)
(** * Shapes used to state what the nodes accept and send *)
(* ================================================================== *)

Module shapes.

Import chainlit_app.

(** A value [.2f] accepts as far as its type goes. *)
Definition is_number (v : pyval) : bool :=
  match v with
  | PyBool _ | PyInt _ | PyFloat _ => true
  | _ => false
  end.

(** A dict with the three keys the context reads, the score a number. *)
Definition candidate_shape (v : pyval) : Prop :=
  exists d title description score,
    v = PyDict d
    /\ dict_get d "title" = Some title
    /\ dict_get d "description" = Some description
    /\ dict_get d "score" = Some score
    /\ is_number score = true.

(** The client [get_llm] builds for the credential [key]. *)
Definition groq (key : string) : ChatGroq :=
  {| model := "llama-3.3-70b-versatile"; temperature := 7 # 10;
     api_key := key |}.

(** One line of the result list for a product of the API's model. *)
Definition listing_line (i : nat) (p : models.Product) : string :=
  str_of_nat i ++ ". " ++ models.title p
  ++ " (Score: " ++ format_2f (models.score p) ++ ")" ++ nl.

Fixpoint listing_lines (i : nat) (ps : list models.Product) : string :=
  match ps with
  | [] => ""
  | p :: rest => listing_line i p ++ listing_lines (S i) rest
  end.

End shapes.

(* ================================================================== *)
(** * More sample data *)
(* ================================================================== *)

Module more_samples.

Import chainlit_app.

(** A search API whose body has the results and no [took_ms]. *)
Definition no_took_ms : Env :=
  samples.world (Some "gsk_test")
    (samples.respond 200
       (PyDict [("results",
                 PyList (map models.Product_json [samples.headphones]))]))
    (Returned "unused").


Fixpoint repeat_string (n : nat) (s : string) : string :=
  match n with
  | O => EmptyString
  | S k => s ++ repeat_string k s
  end.

(** A query of 501 characters. *)
Definition long_query : string := repeat_string 501 "a".

(** A query of 300 characters, each of two bytes. *)
Definition accented_query : string := repeat_string 300 "é".

Definition accented_request : models.SearchRequest.raw :=
  {| models.SearchRequest.raw_query := models.Given accented_query;
     models.SearchRequest.raw_size := models.Omitted |}.

End more_samples.

(* ================================================================== *)
(** * elasticsearch_client.py: the module-level client; main.py: lifespan *)
(* ================================================================== *)

Module es_global.

Import elasticsearch_client.

(** An [ElasticsearchClient] instance, named by its rank among the
    instances constructed. *)
Definition instance : Type := nat.

(** The module's global [_es_client], with the instances constructed so
    far and those whose [close()] was called, oldest first. *)
Record globals := {
  _es_client : option instance;
  constructed : nat;
  closed : list instance
}.

(** At import: [_es_client = None]. *)
Definition at_import : globals :=
  {| _es_client := None; constructed := 0; closed := [] |}.

Definition get_es_client (g : globals) : instance * globals :=
  match _es_client g with
  | None =>
      let c := constructed g in
      (c, {| _es_client := Some c; constructed := S c; closed := closed g |})
  | Some c => (c, g)
  end.

(** [ElasticsearchClient.close] swallows what [client.close()] raises, so
    closing always goes through. *)
Definition close_es_client (g : globals) : globals :=
  match _es_client g with
  | Some c =>
      {| _es_client := None; constructed := constructed g;
         closed := (closed g ++ [c])%list |}
  | None => g
  end.

(** [get_document_count]: [count] is what [client.count(index=...)] answers
    or raises. *)
Definition get_document_count (count : outcome pyval) : option pyval :=
  match count with
  | Returned result =>
      match getitem result "count" with
      | Returned n => Some n
      | Raised _ => None
      end
  | Raised _ => None
  end.

Inductive es_request := Index (c : es_call) | Count.

(** [lifespan] up to [yield]: the lines printed, the requests made to the
    cluster, the globals. *)
Definition lifespan_startup (repr : pyval -> string) (es : Elasticsearch)
    (count : outcome pyval) (g : globals)
    : list string * list es_request * globals :=
  let (es_client, g) := get_es_client g in
  let (connected, c1) := is_connected es in
  if negb connected then
    (["⚠️  Warning: Cannot connect to Elasticsearch"], map Index c1, g)
  else
    let (exists_, c2) := index_exists es in
    if exists_ then
      let doc_count := get_document_count count in
      (["✅ Connected to Elasticsearch";
        "✅ Index '" ++ main.elasticsearch_index ++ "' exists with "
        ++ match doc_count with
           | Some n => str repr n
           | None => "None"
           end
        ++ " documents"],
       (map Index (c1 ++ c2) ++ [Count])%list, g)
    else
      (["✅ Connected to Elasticsearch";
        "⚠️  Warning: Index '" ++ main.elasticsearch_index
        ++ "' does not exist"],
       map Index (c1 ++ c2)%list, g).

(** [lifespan] after [yield]. *)
Definition lifespan_shutdown (g : globals) : list string * globals :=
  (["👋 Closed Elasticsearch connection"], close_es_client g).

(** The route's handler, with the first line of its body:
    [es_client = get_es_client()]. *)
Definition search_route (es : Elasticsearch)
    (request : models.SearchRequest.t) (g : globals)
    : main.handled * list es_call * globals :=
  let (es_client, g) := get_es_client g in
  (main.search_products es request, g).

(** The instances closed are the first ones constructed, in order; the
    current one, if any, is the last constructed. *)
Definition globals_wf (g : globals) : Prop :=
  closed g = seq 0 (List.length (closed g))
  /\ match _es_client g with
     | Some c => c = List.length (closed g) /\ constructed g = S c
     | None => constructed g = List.length (closed g)
     end.

(** What is done to the module's global. *)
Inductive op := Get | Close.

Definition step (g : globals) (o : op) : globals :=
  match o with
  | Get => snd (get_es_client g)
  | Close => close_es_client g
  end.

(** The application's life: startup, the requests served, shutdown. *)
Definition serve_all (es : Elasticsearch)
    (requests : list models.SearchRequest.t) (g : globals) : globals :=
  fold_left (fun g request => snd (search_route es request g)) requests g.

End es_global.

(* ================================================================== *)
(** * The monad of the scripts: an outcome and the calls made *)
(* ================================================================== *)

Module script_io.

Definition IO (C A : Type) : Type := outcome A * list C.

Definition ret {C A} (a : A) : IO C A := (Returned a, []).

Definition bind {C A B} (m : IO C A) (k : A -> IO C B) : IO C B :=
  match m with
  | (Returned a, t) => let (o, t') := k a in (o, (t ++ t')%list)
  | (Raised e, t) => (Raised e, t)
  end.

Definition call {C A} (c : C) (o : outcome A) : IO C A := (o, [c]).

Definition lift {C A} (o : outcome A) : IO C A := (o, []).

Declare Scope io_scope.
Delimit Scope io_scope with io.
Notation "x <- m ;; k" := (bind m (fun x => k))
  (at level 100, m at next level, right associativity) : io_scope.
Notation "m ;; k" := (bind m (fun _ => k))
  (at level 100, right associativity) : io_scope.

End script_io.

(* ================================================================== *)
(** * index_products.py *)
(* ================================================================== *)

Module index_products.

Definition INDEX_NAME : string := main.elasticsearch_index.

(** A row of [csv.DictReader]: the header's names with the row's fields, a
    field the row is too short for being [None]. *)
Definition row : Type := list (string * option string).

(** What reading a CSV file gives: the rows read, and the exception that
    stopped the reader, if one did. *)
Record csv_file := { rows : list row; broken : option exn }.

(** What the script asks of the file system and of the cluster. *)
Inductive io_call :=
| PathExists (path : string)
| OpenCsv (path : string)
| EsPing
| IndicesExists (index : string)
| IndicesDelete (index : string)
| IndicesCreate (index : string) (body : pyval)
| Bulk (actions : list pyval) (refresh : bool)
| EsCount (index : string)
| EsSearch (index : string) (body : pyval).

(** The outside world of the script.  [parse_int] is [int] on a string, and
    [repr] the interpreter's [repr] (see [py.str]). *)
Record World := {
  path_exists : string -> bool;
  open_csv : string -> outcome csv_file;
  ping : outcome bool;
  indices_exists : outcome bool;
  indices_delete : outcome unit;
  indices_create : outcome unit;
  bulk : list pyval -> outcome (Z * list pyval);
  count : outcome pyval;
  search : outcome pyval;
  parse_int : string -> option Z;
  repr : pyval -> string
}.

Import script_io.

(** ** More of Python *)

Definition IndexError (msg : string) : exn := Exn "IndexError" msg.

(** [sys.exit(code)] *)
Definition SystemExit (code : Z) : exn := Exn "SystemExit" (str_of_Z code).

(** [int(v)] for a field of a row *)
Definition int_ (w : World) (v : option string) : outcome Z :=
  match v with
  | None =>
      Raised (TypeError "int() argument must be a string, a bytes-like object or a real number, not 'NoneType'")
  | Some s =>
      match parse_int w s with
      | Some z => Returned z
      | None =>
          Raised (ValueError ("invalid literal for int() with base 10: "
                              ++ repr w (PyStr s)))
      end
  end.

Fixpoint row_get (r : row) (key : string) : option (option string) :=
  match r with
  | [] => None
  | (k, v) :: r' => if String.eqb k key then Some v else row_get r' key
  end.

(** [row[key]] *)
Definition row_getitem (r : row) (key : string) : outcome (option string) :=
  match row_get r key with
  | Some v => Returned v
  | None => Raised (KeyError key)
  end.

Definition field_value (v : option string) : pyval :=
  match v with
  | Some s => PyStr s
  | None => PyNone
  end.

(** [v[0]] *)
Definition getitem_0 (v : pyval) : outcome pyval :=
  match v with
  | PyList l =>
      match l with
      | x :: _ => Returned x
      | [] => Raised (IndexError "list index out of range")
      end
  | PyStr s =>
      match utf8_chars s with
      | c :: _ => Returned (PyStr c)
      | [] => Raised (IndexError "string index out of range")
      end
  | PyDict _ => Raised (Exn "KeyError" "0")
  | _ =>
      Raised (TypeError ("'" ++ type_name v ++ "' object is not subscriptable"))
  end.

(** The first [n] characters of [s]. *)
Definition string_take (n : nat) (s : string) : string :=
  String.concat EmptyString (firstn n (utf8_chars s)).

(** [v[:100]]; on a dict the slice is looked up as a key. *)
Definition slice_100 (v : pyval) : outcome pyval :=
  match v with
  | PyStr s => Returned (PyStr (string_take 100 s))
  | PyList l => Returned (PyList (firstn 100 l))
  | PyDict _ => Raised (Exn "KeyError" "slice(None, 100, None)")
  | _ =>
      Raised (TypeError ("'" ++ type_name v ++ "' object is not subscriptable"))
  end.

(** ** create_index *)

Definition mapping : pyval :=
  PyDict [("mappings",
    PyDict [("properties",
      PyDict [("id", PyDict [("type", PyStr "integer")]);
              ("title", PyDict [("type", PyStr "text")]);
              ("description", PyDict [("type", PyStr "text")])])])].

Definition create_index (w : World) : IO io_call bool :=
  (present <- call (IndicesExists INDEX_NAME) (indices_exists w) ;;
   (if present then call (IndicesDelete INDEX_NAME) (indices_delete w)
    else ret tt) ;;
   call (IndicesCreate INDEX_NAME mapping) (indices_create w) ;;
   ret true)%io.

(** ** load_products *)

(** The dict appended for a row (lines 48-52). *)
Definition product_of_row (w : World) (r : row) : outcome pyval :=
  chainlit_app.obind (row_getitem r "id") (fun id_field =>
  chainlit_app.obind (int_ w id_field) (fun id =>
  chainlit_app.obind (row_getitem r "TITLE") (fun title =>
  chainlit_app.obind (row_getitem r "DESCRIPTION") (fun description =>
  Returned (PyDict [("id", PyInt id);
                    ("title", field_value title);
                    ("description", field_value description)]))))).

(** The loop over the reader: [products.append(...)] row after row. *)
Fixpoint load_rows (w : World) (rs : list row) (products : list pyval)
    : outcome (list pyval) :=
  match rs with
  | [] => Returned products
  | r :: rest =>
      chainlit_app.obind (product_of_row w r) (fun p =>
      load_rows w rest (products ++ [p])%list)
  end.

Definition load_products (w : World) (csv_path : string)
    : IO io_call (list pyval) :=
  (f <- call (OpenCsv csv_path) (open_csv w csv_path) ;;
   products <- lift (load_rows w (rows f) []) ;;
   match broken f with
   | Some e => lift (Raised e)
   | None => ret products
   end)%io.

(** ** index_products *)

(** The action appended for a product (lines 68-76). *)
Definition action_of (product : pyval) : outcome pyval :=
  chainlit_app.obind (getitem product "id") (fun _id =>
  chainlit_app.obind (getitem product "id") (fun id =>
  chainlit_app.obind (getitem product "title") (fun title =>
  chainlit_app.obind (getitem product "description") (fun description =>
  Returned (PyDict [("_index", PyStr INDEX_NAME);
                    ("_id", _id);
                    ("_source", PyDict [("id", id);
                                        ("title", title);
                                        ("description", description)])]))))).

Fixpoint build_actions (products : list pyval) (actions : list pyval)
    : outcome (list pyval) :=
  match products with
  | [] => Returned actions
  | product :: rest =>
      chainlit_app.obind (action_of product) (fun a =>
      build_actions rest (actions ++ [a])%list)
  end.

Definition index_products (w : World) (products : list pyval) : IO io_call Z :=
  (actions <- lift (build_actions products []) ;;
   result <- call (Bulk actions true) (bulk w actions) ;;
   let (success, failed) := (result : Z * list pyval) in
   ret success)%io.

(** ** main *)

Definition csv_locations : list string :=
  ["../data/amazon_product_reviews_1000_utf8.csv";
   "/data/amazon_product_reviews_1000_utf8.csv";
   "data/amazon_product_reviews_1000_utf8.csv"].

(** The loop of lines 103-108: the first location that exists. *)
Fixpoint find_csv (w : World) (locations : list string)
    : IO io_call (option string) :=
  match locations with
  | [] => ret None
  | path :: rest =>
      (found <- call (PathExists path) (Returned (path_exists w path)) ;;
       if found then ret (Some path) else find_csv w rest)%io
  end.

Definition match_all_one : pyval :=
  PyDict [("query", PyDict [("match_all", PyDict [])]); ("size", PyInt 1)].

Definition hits_of (result : pyval) : outcome pyval :=
  chainlit_app.obind (getitem result "hits") (fun h => getitem h "hits").

Definition main (w : World) : IO io_call unit :=
  (csv_path <- find_csv w csv_locations ;;
   match csv_path with
   | None => lift (Raised (SystemExit 1))
   | Some csv_path =>
       connected <- call EsPing (ping w) ;;
       if negb connected then lift (Raised (SystemExit 1))
       else
         create_index w ;;
         products <- load_products w csv_path ;;
         index_products w products ;;
         counted <- call (EsCount INDEX_NAME) (count w) ;;
         doc_count <- lift (getitem counted "count") ;;
         result <- call (EsSearch INDEX_NAME match_all_one) (search w) ;;
         hits <- lift (hits_of result) ;;
         if truthy hits then
           hits <- lift (hits_of result) ;;
           first <- lift (getitem_0 hits) ;;
           doc <- lift (getitem first "_source") ;;
           lift (getitem doc "id") ;;
           lift (getitem doc "title") ;;
           description <- lift (getitem doc "description") ;;
           lift (slice_100 description) ;;
           ret tt
         else ret tt
   end)%io.

(** [main] from the point where the cluster answered [ping]. *)
Definition connected_main (w : World) (csv_path : string)
    : IO io_call unit :=
  (create_index w ;;
   products <- load_products w csv_path ;;
   index_products w products ;;
   counted <- call (EsCount INDEX_NAME) (count w) ;;
   doc_count <- lift (getitem counted "count") ;;
   result <- call (EsSearch INDEX_NAME match_all_one) (search w) ;;
   hits <- lift (hits_of result) ;;
   if truthy hits then
     hits <- lift (hits_of result) ;;
     first <- lift (getitem_0 hits) ;;
     doc <- lift (getitem first "_source") ;;
     lift (getitem doc "id") ;;
     lift (getitem doc "title") ;;
     description <- lift (getitem doc "description") ;;
     lift (slice_100 description) ;;
     ret tt
   else ret tt)%io.

(** The action expected for a row whose id reads [id]. *)
Definition row_action (id : Z) (title description : option string) : pyval :=
  PyDict [("_index", PyStr INDEX_NAME);
          ("_id", PyInt id);
          ("_source", PyDict [("id", PyInt id);
                              ("title", field_value title);
                              ("description", field_value description)])].

(** [a] is the action of row [r]: its id read as an integer, its [TITLE]
    and [DESCRIPTION] columns. *)
Definition action_of_row (w : World) (r : row) (a : pyval) : Prop :=
  exists id_field id title description,
    row_get r "id" = Some id_field
    /\ int_ w id_field = Returned id
    /\ row_get r "TITLE" = Some title
    /\ row_get r "DESCRIPTION" = Some description
    /\ a = row_action id title description.

(** The calls that change the cluster. *)
Definition changes_cluster (c : io_call) : bool :=
  match c with
  | IndicesDelete _ | IndicesCreate _ _ | Bulk _ _ => true
  | _ => false
  end.

(** A call that is no probe of the file system and opens no file but
    [path]. *)
Definition opens_only (path : string) (c : io_call) : Prop :=
  match c with
  | OpenCsv q => q = path
  | PathExists _ => False
  | _ => True
  end.

(** ** Sample worlds *)

Definition good_rows : list row :=
  [[("id", Some "1"); ("TITLE", Some "Sony WH-1000XM5 Wireless Headphones");
    ("DESCRIPTION", Some "Premium noise-canceling wireless headphones")];
   [("id", Some "2"); ("TITLE", Some "Bluetooth Earbuds");
    ("DESCRIPTION", None)]].

Definition bad_rows : list row :=
  [[("id", Some "1"); ("TITLE", Some "Sony WH-1000XM5 Wireless Headphones");
    ("DESCRIPTION", Some "Premium noise-canceling wireless headphones")];
   [("id", Some "B07"); ("TITLE", Some "Bluetooth Earbuds");
    ("DESCRIPTION", Some "Compact wireless earbuds")]].

(** [int] on the strings of the sample rows. *)
Definition sample_int (s : string) : option Z :=
  if String.eqb s "1" then Some 1
  else if String.eqb s "2" then Some 2
  else None.

(** A world in which only the Docker volume holds the CSV file, with
    [rs] as its rows, the cluster answers [pinged] to [ping], and the
    index exists already. *)
Definition sample_world (rs : list row) (pinged : bool) : World :=
  {| path_exists := fun p =>
       String.eqb p "/data/amazon_product_reviews_1000_utf8.csv";
     open_csv := fun _ => Returned {| rows := rs; broken := None |};
     ping := Returned pinged;
     indices_exists := Returned true;
     indices_delete := Returned tt;
     indices_create := Returned tt;
     bulk := fun actions =>
       Returned (Z.of_nat (List.length actions), []);
     count := Returned (PyDict [("count", PyInt 2)]);
     search := Returned (PyDict [("hits", PyDict [("hits", PyList [])])]);
     parse_int := sample_int;
     repr := samples.simple_repr |}.

(** A world without the CSV file anywhere. *)
Definition no_csv_world : World :=
  {| path_exists := fun _ => false;
     open_csv := fun _ =>
       Raised (Exn "FileNotFoundError" "[Errno 2] No such file or directory");
     ping := Returned true;
     indices_exists := Returned true;
     indices_delete := Returned tt;
     indices_create := Returned tt;
     bulk := fun actions => Returned (0, []);
     count := Returned (PyDict [("count", PyInt 0)]);
     search := Returned (PyDict [("hits", PyDict [("hits", PyList [])])]);
     parse_int := sample_int;
     repr := samples.simple_repr |}.

End index_products.

(* ================================================================== *)
(** * index_products_with_embeddings.py: index_products *)
(* ================================================================== *)

Module index_products_with_embeddings.

Import script_io.

Definition INDEX_NAME : string := main.elasticsearch_index.

Inductive io_call :=
| Encode (text : string)
| Bulk (actions : list pyval) (refresh : bool).

(** The embedding model behind
    [model.encode(text, normalize_embeddings=True).tolist()], the cluster
    behind [bulk], the interpreter's [repr]. *)
Record World := {
  encode : string -> outcome pyval;
  bulk : list pyval -> outcome (Z * list pyval);
  repr : pyval -> string
}.

(** The two entries appended for a product (lines 76-88). *)
Definition entries_of (w : World) (product : pyval)
    : IO io_call (list pyval) :=
  (title <- lift (getitem product "title") ;;
   description <- lift (getitem product "description") ;;
   let text := str (repr w) title ++ " " ++ str (repr w) description in
   embedding <- call (Encode text) (encode w text) ;;
   _id <- lift (getitem product "id") ;;
   id <- lift (getitem product "id") ;;
   title <- lift (getitem product "title") ;;
   description <- lift (getitem product "description") ;;
   ret [PyDict [("index", PyDict [("_index", PyStr INDEX_NAME);
                                  ("_id", _id)])];
        PyDict [("id", id); ("title", title);
                ("description", description);
                ("embedding", embedding)]])%io.

(** The first loop: [bulk_data] grows by two entries per product. *)
Fixpoint fill (w : World) (products : list pyval) (bulk_data : list pyval)
    : IO io_call (list pyval) :=
  match products with
  | [] => ret bulk_data
  | product :: rest =>
      (entries <- entries_of w product ;;
       fill w rest (bulk_data ++ entries)%list)%io
  end.

(** The second loop: [for i in range(0, len(bulk_data), 2)], with
    [bulk_data[i]] and [bulk_data[i + 1]]. *)
Fixpoint pair_actions (bulk_data : list pyval) (actions : list pyval)
    : outcome (list pyval) :=
  match bulk_data with
  | [] => Returned actions
  | action :: after_ =>
      match after_ with
      | [] => Raised (index_products.IndexError "list index out of range")
      | doc :: rest =>
          chainlit_app.obind (getitem doc "id") (fun id =>
          pair_actions rest
            (actions ++ [PyDict [("_index", PyStr INDEX_NAME);
                                 ("_id", id);
                                 ("_source", doc)]])%list)
      end
  end.

Definition index_products (w : World) (products : list pyval)
    : IO io_call Z :=
  (bulk_data <- fill w products [] ;;
   actions <- lift (pair_actions bulk_data []) ;;
   result <- call (Bulk actions true) (bulk w actions) ;;
   let (success, failed) := (result : Z * list pyval) in
   ret success)%io.

(** The action expected for [product], and the text its embedding is
    computed from. *)
Definition embedded_action (w : World) (product action : pyval)
    (text : string) : Prop :=
  exists id title description embedding,
    getitem product "id" = Returned id
    /\ getitem product "title" = Returned title
    /\ getitem product "description" = Returned description
    /\ text = str (repr w) title ++ " " ++ str (repr w) description
    /\ encode w text = Returned embedding
    /\ action = PyDict [("_index", PyStr INDEX_NAME);
                        ("_id", id);
                        ("_source",
                         PyDict [("id", id); ("title", title);
                                 ("description", description);
                                 ("embedding", embedding)])].

(** A model that answers every text with the same vector. *)
Definition sample_world : World :=
  {| encode := fun _ =>
       Returned (PyList [PyFloat (samples.float 1 (-1));
                         PyFloat (samples.float 3 (-2))]);
     bulk := fun actions => Returned (Z.of_nat (List.length actions), []);
     repr := samples.simple_repr |}.

Definition sample_products : list pyval :=
  [PyDict [("id", PyInt 1);
           ("title", PyStr "Bluetooth Earbuds");
           ("description", PyStr "Compact wireless earbuds")]].

(** The value of a computation that returned (the empty list otherwise). *)
Definition fst_returned (m : IO io_call (list pyval)) : list pyval :=
  match fst m with
  | Returned l => l
  | Raised _ => []
  end.

End index_products_with_embeddings.

(* ================================================================== *)
(** * Properties *)
(* ================================================================== *)

Import chainlit_app.

(** ** Running a node symbolically *)

Ltac unfold_nodes :=
  cbv [search_products generate_answer client_post llm_invoke exec
       bind ret raise lift try_except get modify
       set_search_results set_error set_answer log_call].

Ltac proj := cbn [state calls query search_results answer error fst snd].

Ltac break_match :=
  match goal with
  | |- context [match ?x with _ => _ end] =>
      lazymatch x with
      | context [match _ with _ => _ end] => fail
      | _ => destruct x eqn:?
      end
  end.

Ltac run_node := unfold_nodes; proj; repeat (break_match; proj).

(** What [generate_answer] does, as one equation. *)
Lemma generate_answer_cases env st :
  let s := state st in
  generate_answer env st =
  if truthy_str (error s) then
    let s' := with_answer s ("Sorry, I encountered an error: " ++ str_error (error s)) in
    (Returned s', {| state := s'; calls := calls st |})
  else if negb (truthy (search_results s)) then
    let s' := with_answer s no_match_message in
    (Returned s', {| state := s'; calls := calls st |})
  else
    match len (search_results s) with
    | Raised e => (Raised e, st)
    | Returned _ =>
    match format_context (repr env) (search_results s) with
    | Raised e => (Raised e, st)
    | Returned ctx =>
    match get_llm env with
    | Raised e =>
        let s' := with_answer s ("Sorry, I couldn't generate a response: " ++ exn_str e) in
        (Returned s', {| state := s'; calls := calls st |})
    | Returned llm =>
        let c := LlmInvoke llm (make_prompt ctx (query s)) in
        match invoke env llm (make_prompt ctx (query s)) with
        | Returned content =>
            let s' := with_answer s content in
            (Returned s', {| state := s'; calls := (calls st ++ [c])%list |})
        | Raised e =>
            let s' := with_answer s ("Sorry, I couldn't generate a response: " ++ exn_str e) in
            (Returned s', {| state := s'; calls := (calls st ++ [c])%list |})
        end
    end end end.
Proof.
  destruct st as [s cs]. run_node; reflexivity.
Qed.

(** What [search_products] does, as one equation. *)
Lemma search_products_cases env st :
  let s := state st in
  let cs := (calls st ++ [search_request env s])%list in
  let failed msg := let s' := with_error s (Some msg) in
                    (Returned s', {| state := s'; calls := cs |}) in
  search_products env st =
  match post env (search_api_url env ++ "/search")
          {| body_query := query s; body_size := 5 |} (10 # 1) with
  | Raised e => failed ("Search error: " ++ exn_str e)
  | Returned response =>
      if (status_code response =? 200)%Z then
        match json response with
        | Raised e => failed ("Search error: " ++ exn_str e)
        | Returned data =>
            match getitem data "results" with
            | Raised e => failed ("Search error: " ++ exn_str e)
            | Returned results =>
                let kept msg :=
                  let s' := with_error (with_search_results s results) (Some msg) in
                  (Returned s', {| state := s'; calls := cs |}) in
                match len results with
                | Raised e => kept ("Search error: " ++ exn_str e)
                | Returned _ =>
                    match getitem data "took_ms" with
                    | Raised e => kept ("Search error: " ++ exn_str e)
                    | Returned _ =>
                        let s' := with_search_results s results in
                        (Returned s', {| state := s'; calls := cs |})
                    end
                end
            end
        end
      else failed ("Search failed with status " ++ str_of_Z (status_code response))
  end.
Proof.
  destruct st as [s cs]. unfold search_request. run_node; try reflexivity; try congruence.
Qed.

(** The compiled graph runs the two nodes in sequence. *)
Lemma run_eq env content :
  run env content =
  match search_products env {| state := initial_state content; calls := [] |} with
  | (Returned _, st1) =>
      match generate_answer env st1 with
      | (Returned _, st2) => (Returned (state st2), calls st2)
      | (Raised e, st2) => (Raised e, calls st2)
      end
  | (Raised e, st1) => (Raised e, calls st1)
  end.
Proof.
  unfold run, ainvoke, create_agent_graph, recursion_limit.
  cbn -[search_products generate_answer].
  unfold bind, get.
  destruct (search_products env _) as [[a|e] st1]; [|reflexivity].
  destruct (generate_answer env st1) as [[b|e] st2]; reflexivity.
Qed.

Lemma truthy_search_error msg : truthy_str (Some ("Search error: " ++ msg)) = true.
Proof. reflexivity. Qed.

Lemma truthy_search_failed msg :
  truthy_str (Some ("Search failed with status " ++ msg)) = true.
Proof. reflexivity. Qed.

(** The retrieval stage always returns, has made exactly its one request,
    and leaves an error that is either absent or a non-empty text. *)
Lemma search_stage env content :
  exists st1,
    search_products env {| state := initial_state content; calls := [] |}
    = (Returned (state st1), st1)
    /\ state st1 = retrieved env content
    /\ calls st1 = [search_request env (initial_state content)]
    /\ query (state st1) = content
    /\ (error (state st1) = None
        \/ exists err, error (state st1) = Some err /\ truthy_str (Some err) = true).
Proof.
  unfold retrieved, exec.
  rewrite search_products_cases. cbn [state calls app initial_state query].
  repeat break_match;
    (eexists; repeat split; try reflexivity; cbn;
     first [ left; reflexivity | right; eexists; split; reflexivity ]).
Qed.

Lemma run_generate env content :
  exists st1,
    state st1 = retrieved env content
    /\ calls st1 = [search_request env (initial_state content)]
    /\ query (state st1) = content
    /\ (error (state st1) = None
        \/ exists err, error (state st1) = Some err /\ truthy_str (Some err) = true)
    /\ run env content =
       match generate_answer env st1 with
       | (Returned _, st2) => (Returned (state st2), calls st2)
       | (Raised e, st2) => (Raised e, calls st2)
       end.
Proof.
  destruct (search_stage env content) as (st1 & E & H1 & H2 & H3 & H4).
  exists st1. repeat split; auto.
  rewrite run_eq, E. reflexivity.
Qed.

(** ** Frame *)

Lemma generate_answer_frame env st :
  let st' := snd (generate_answer env st) in
  query (state st') = query (state st)
  /\ search_results (state st') = search_results (state st)
  /\ error (state st') = error (state st).
Proof.
  rewrite generate_answer_cases; cbv zeta.
  repeat break_match; cbn; auto.
Qed.

(** C10.  Whatever the state and the outside world, and whether it returns
    or raises, [generate_answer] leaves [query], [search_results] and
    [error] as they were (it writes [answer] only), and [search_products]
    leaves [query] and [answer] as they were (it writes [search_results]
    or [error] only). *)
Theorem nodes_frame env st :
  (let st' := snd (generate_answer env st) in
   query (state st') = query (state st)
   /\ search_results (state st') = search_results (state st)
   /\ error (state st') = error (state st))
  /\ (let st' := snd (search_products env st) in
      query (state st') = query (state st)
      /\ answer (state st') = answer (state st)).
Proof.
  split; cbv zeta.
  - rewrite generate_answer_cases; cbv zeta.
    destruct (truthy_str (error (state st))); [cbn; auto|].
    destruct (truthy (search_results (state st))); [|cbn; auto].
    cbn [negb].
    destruct (len (search_results (state st))); [|cbn; auto].
    destruct (format_context (repr env) (search_results (state st)));
      [|cbn; auto].
    destruct (get_llm env) as [llm|e]; [|cbn; auto].
    destruct (invoke env llm _); cbn; auto.
  - rewrite search_products_cases; cbv zeta.
    destruct (post env _ _ _) as [response|e]; [|cbn; auto].
    destruct (status_code response =? 200)%Z; [|cbn; auto].
    destruct (json response) as [data|e]; [|cbn; auto].
    destruct (getitem data "results") as [results|e]; [|cbn; auto].
    destruct (len results); [|cbn; auto].
    destruct (getitem data "took_ms"); cbn; auto.
Qed.

(** ** Short circuits of the generation stage *)

(** C5.  A request that raises (timeout, connection failure) or a status
    other than 200 sets [error]; and whenever the retrieval stage has set
    [error], the run returns a state (no exception) whose [error] is that
    error and whose [answer] is the error report embedding it, and the
    generation backend is not called. *)
Theorem retrieval_error_short_circuits env content :
  let s1 := retrieved env content in
  let url := search_api_url env ++ "/search" in
  let body := {| body_query := content; body_size := 5 |} in
  (forall e, post env url body (10 # 1) = Raised e ->
             error s1 = Some ("Search error: " ++ exn_str e))
  /\ (forall r, post env url body (10 # 1) = Returned r ->
                status_code r <> 200 ->
                error s1 = Some ("Search failed with status "
                                 ++ str_of_Z (status_code r)))
  /\ (forall err, error s1 = Some err ->
        exists s,
          run env content = (Returned s, [search_request env (initial_state content)])
          /\ error s = Some err
          /\ answer s = "Sorry, I encountered an error: " ++ err
          /\ backend_calls (snd (run env content)) = 0%nat).
Proof.
  cbv zeta. split; [|split].
  - intros e He. unfold retrieved, exec.
    rewrite search_products_cases. cbn [state initial_state query].
    rewrite He. reflexivity.
  - intros r Hr Hs. unfold retrieved, exec.
    rewrite search_products_cases. cbn [state initial_state query].
    rewrite Hr. apply Z.eqb_neq in Hs. rewrite Hs. reflexivity.
  - intros err Herr.
    destruct (run_generate env content) as (st1 & Hs & Hc & Hq & He & Hrun).
    rewrite <- Hs in Herr.
    assert (Ht : truthy_str (error (state st1)) = true).
    { destruct He as [He | (err' & He & Ht)]; [congruence|].
      rewrite He. exact Ht. }
    rewrite Hrun, generate_answer_cases. cbv zeta. rewrite Ht.
    cbn [state calls]. rewrite Hc, Herr.
    eexists. repeat split; cbn; auto.
Qed.

Lemma retrieval_error_short_circuits_witness :
  exists s,
    run samples.timed_out "wireless headphones"
    = (Returned s,
       [search_request samples.timed_out (initial_state "wireless headphones")])
    /\ error s = Some "Search error: "
    /\ answer s = "Sorry, I encountered an error: Search error: "
    /\ backend_calls (snd (run samples.timed_out "wireless headphones")) = 0%nat.
Proof.
  apply (proj2 (proj2 (retrieval_error_short_circuits samples.timed_out
                         "wireless headphones"))).
  apply (proj1 (retrieval_error_short_circuits samples.timed_out
                  "wireless headphones") (Exn "ReadTimeout" "")).
  reflexivity.
Defined.

(** C4.  When retrieval completes without error and with no document, the
    run returns, its answer is the sentence of line 86 that asks the user to
    rephrase, and the generation backend is not called: the call log holds
    the search request only. *)
Theorem no_matches_answer env content :
  let s1 := retrieved env content in
  error s1 = None ->
  search_results s1 = PyList [] ->
  exists s,
    run env content = (Returned s, [search_request env (initial_state content)])
    /\ answer s
       = "I couldn't find any products matching your query. Could you try rephrasing?"
    /\ search_results s = PyList []
    /\ error s = None
    /\ backend_calls (snd (run env content)) = 0%nat.
Proof.
  cbv zeta. intros Herr Hres.
  destruct (run_generate env content) as (st1 & Hs & Hc & Hq & He & Hrun).
  rewrite <- Hs in Herr, Hres.
  rewrite Hrun, generate_answer_cases. cbv zeta.
  rewrite Herr, Hres. cbn [truthy_str truthy negb state calls]. rewrite Hc.
  eexists. repeat split; cbn; auto.
Qed.

Lemma no_matches_answer_witness :
  exists s,
    run samples.nothing_found "zzz_no_such_item"
    = (Returned s,
       [search_request samples.nothing_found (initial_state "zzz_no_such_item")])
    /\ answer s
       = "I couldn't find any products matching your query. Could you try rephrasing?"
    /\ search_results s = PyList []
    /\ error s = None
    /\ backend_calls (snd (run samples.nothing_found "zzz_no_such_item")) = 0%nat.
Proof.
  apply (no_matches_answer samples.nothing_found "zzz_no_such_item");
    vm_compute; reflexivity.
Defined.

Lemma format_context_len repr v ctx :
  format_context repr v = Returned ctx -> exists n, len v = Returned n.
Proof.
  destruct v; cbn; try discriminate; eauto.
Qed.

Lemma backend_calls_app cs c :
  backend_calls (cs ++ [c]) = (backend_calls cs + backend_calls [c])%nat.
Proof.
  unfold backend_calls. rewrite filter_app, length_app. reflexivity.
Qed.

Lemma get_llm_returns env :
  truthy_str (getenv env "GROQ_API_KEY") = true <->
  exists llm, get_llm env = Returned llm.
Proof.
  unfold get_llm. destruct (getenv env "GROQ_API_KEY") as [[|c k]|]; cbn;
    split; intros H; try discriminate; eauto;
    destruct H as [llm H]; discriminate.
Qed.

(** C1, amended.  The generation backend is called if and only if the
    retrieval stage set no error, produced a non-empty retrieval set, every
    candidate of which renders into the context, and the credential is
    present; when an error is set or the retrieval set is empty, the
    generation stage writes the answer itself (the error report or the
    no-match message) without calling the backend. *)
Theorem backend_invoked_iff env content :
  let s1 := retrieved env content in
  let cs := snd (run env content) in
  (backend_invoked cs <->
     error s1 = None
     /\ truthy (search_results s1) = true
     /\ (exists ctx, format_context (repr env) (search_results s1) = Returned ctx)
     /\ truthy_str (getenv env "GROQ_API_KEY") = true)
  /\ (error s1 <> None \/ truthy (search_results s1) = false ->
      backend_calls cs = 0%nat
      /\ exists s,
           fst (run env content) = Returned s
           /\ answer s = match error s1 with
                         | Some err => "Sorry, I encountered an error: " ++ err
                         | None => no_match_message
                         end).
Proof.
  cbv zeta.
  destruct (run_generate env content) as (st1 & Hs & Hc & Hq & He & Hrun).
  rewrite <- Hs, Hrun, generate_answer_cases. cbv zeta. clear Hrun Hs.
  unfold backend_invoked.
  destruct He as [He | (err & He & Ht)].
  - rewrite He. cbn [truthy_str].
    destruct (truthy (search_results (state st1))) eqn:Htr; cbn [negb].
    + destruct (format_context (repr env) (search_results (state st1)))
        as [ctx|e] eqn:Hctx.
      * destruct (format_context_len _ _ _ Hctx) as [n Hn]. rewrite Hn.
        destruct (get_llm env) as [llm|e] eqn:Hllm.
        -- assert (Hk : truthy_str (getenv env "GROQ_API_KEY") = true)
             by (apply get_llm_returns; eauto).
           destruct (invoke env llm _); cbn [snd calls];
             rewrite backend_calls_app, Hc; cbn;
             (split; [split; [intros _; eauto 6 | discriminate]
                     | intros [H|H]; congruence]).
        -- assert (Hk : truthy_str (getenv env "GROQ_API_KEY") <> true).
           { intros Hk. apply get_llm_returns in Hk. destruct Hk; congruence. }
           cbn [snd calls]. rewrite Hc. cbn.
           split; [split; [congruence | tauto] | intros [H|H]; congruence].
      * destruct (len (search_results (state st1))); cbn [snd calls];
          rewrite Hc; cbn;
          (split; [split; [congruence | intros (_ & _ & [c Hc'] & _); discriminate]
                  | intros [H|H]; congruence]).
    + cbn [snd fst calls state]. rewrite Hc. cbn.
      split; [split; [congruence | intros (_ & H & _); discriminate]|].
      intros _. split; [reflexivity|]. eexists; split; reflexivity.
  - rewrite He in *. rewrite Ht. cbn [snd fst calls state]. rewrite Hc. cbn.
    split; [split; [congruence | intros (H & _); discriminate]|].
    intros _. split; [reflexivity|]. eexists; split; reflexivity.
Qed.

(** C1 as stated fails: with candidates found and no credential configured,
    retrieval succeeded with two candidates and the backend is not called
    ([get_llm] raises before any call). *)
Lemma generation_iff_retrieval_fails :
  ~ spec.generation_iff_retrieval samples.no_credential "wireless headphones".
Proof.
  unfold spec.generation_iff_retrieval, backend_invoked.
  intros [_ H].
  assert (Hne : backend_calls (snd (run samples.no_credential "wireless headphones")) <> 0%nat).
  { apply H. split; vm_compute; reflexivity. }
  apply Hne. vm_compute. reflexivity.
Qed.

Lemma backend_invoked_iff_witness :
  backend_invoked (snd (run samples.all_well "wireless headphones")).
Proof.
  apply (backend_invoked_iff samples.all_well "wireless headphones").
  repeat split; try (vm_compute; reflexivity).
  eexists. vm_compute. reflexivity.
Defined.



Lemma generate_answer_prompts env s llm p :
  In (LlmInvoke llm p) (calls (snd (exec (generate_answer env) s))) ->
  exists ctx,
    format_context (repr env) (search_results s) = Returned ctx
    /\ p = make_prompt ctx (query s).
Proof.
  unfold exec. rewrite generate_answer_cases. cbv zeta. cbn [state calls].
  repeat break_match; cbn [snd calls app In];
    intros H; repeat (destruct H as [H|H]); try contradiction;
    try discriminate.
  all: injection H as <- <-; eauto.
Qed.

Lemma join_blank_line rs :
  join (nl ++ nl) rs = spec.blank_line_separated rs.
Proof.
  induction rs as [|r rest IH]; [reflexivity|].
  cbn [join spec.blank_line_separated]. rewrite IH.
  destruct rest; reflexivity.
Qed.

Lemma format_record_inv repr i v r :
  format_record repr i v = Returned r ->
  exists title description score score_2f,
    getitem v "title" = Returned title
    /\ getitem v "description" = Returned description
    /\ getitem v "score" = Returned score
    /\ format_spec_2f score = Returned score_2f
    /\ r = spec.block repr (i + 1) title description score_2f.
Proof.
  unfold format_record.
  destruct (getitem v "title") as [title|e]; cbn [obind]; [|discriminate].
  destruct (getitem v "description") as [description|e]; cbn [obind];
    [|discriminate].
  destruct (getitem v "score") as [score|e]; cbn [obind]; [|discriminate].
  destruct (format_spec_2f score) as [score_2f|e] eqn:Hs; cbn [obind];
    [|discriminate].
  intros [= <-]. exists title, description, score, score_2f.
  repeat split; try reflexivity. exact Hs.
Qed.

Lemma format_records_nth repr items : forall i rs,
  format_records repr i items = Returned rs ->
  List.length rs = List.length items
  /\ forall k item,
       nth_error items k = Some item ->
       exists r, format_record repr (i + k) item = Returned r
                 /\ nth_error rs k = Some r.
Proof.
  induction items as [|x rest IH]; intros i rs H.
  - injection H as <-. split; [reflexivity|].
    intros [|k] item; discriminate.
  - cbn [format_records] in H.
    destruct (format_record repr i x) as [r|e] eqn:Hr; cbn [obind] in H;
      [|discriminate].
    destruct (format_records repr (S i) rest) as [rs'|e] eqn:Hrs;
      cbn [obind] in H; [|discriminate].
    injection H as <-. destruct (IH _ _ Hrs) as [Hlen Hnth].
    split; [cbn [List.length]; rewrite Hlen; reflexivity|].
    intros [|k] item Hk; cbn [nth_error] in *.
    + injection Hk as <-. exists r. rewrite Nat.add_0_r. auto.
    + destruct (Hnth k item Hk) as (r' & Hr' & Hk').
      exists r'. rewrite Nat.add_succ_r. auto.
Qed.

(** C8.  The context block depends on the retrieval set alone and keeps its
    order.  Take two runs of the generation stage on the same retrieval
    set, in whatever states and outside worlds.  The prompts they hand to
    the backend are built on one and the same block, the formatter's output
    for that set; when both states are free of error or both carry one, the
    two runs raise the same exception or none; and the stage leaves the
    retrieval set as it was, so that formatting it again gives the same
    outcome.  Whenever the block is rendered, it is the blocks of the
    candidates, one per candidate, a blank line between two of them, the
    block at each position being that of the candidate at that position of
    the set: its position counted from 1, its title, its description and
    its score. *)
Theorem context_formatting_deterministic env1 env2 s1 s2 :
  repr env1 = repr env2 ->
  search_results s1 = search_results s2 ->
  (forall llm1 p1 llm2 p2,
     In (LlmInvoke llm1 p1) (calls (snd (exec (generate_answer env1) s1))) ->
     In (LlmInvoke llm2 p2) (calls (snd (exec (generate_answer env2) s2))) ->
     exists ctx,
       format_context (repr env1) (search_results s1) = Returned ctx
       /\ p1 = make_prompt ctx (query s1)
       /\ p2 = make_prompt ctx (query s2))
  /\ (truthy_str (error s1) = truthy_str (error s2) ->
      forall e,
        fst (exec (generate_answer env1) s1) = Raised e
        <-> fst (exec (generate_answer env2) s2) = Raised e)
  /\ search_results (state (snd (exec (generate_answer env1) s1)))
     = search_results s1
  /\ format_context (repr env2)
       (search_results (state (snd (exec (generate_answer env1) s1))))
     = format_context (repr env1) (search_results s1)
  /\ (forall ctx,
        format_context (repr env1) (search_results s1) = Returned ctx ->
        exists items blocks,
          iter (search_results s1) = Returned items
          /\ ctx = spec.blank_line_separated blocks
          /\ List.length blocks = List.length items
          /\ forall i item,
               nth_error items i = Some item ->
               exists title description score score_2f,
                 getitem item "title" = Returned title
                 /\ getitem item "description" = Returned description
                 /\ getitem item "score" = Returned score
                 /\ format_spec_2f score = Returned score_2f
                 /\ nth_error blocks i
                    = Some (spec.block (repr env1) (i + 1)
                              title description score_2f)).
Proof.
  intros Hrepr Hres.
  assert (Hframe : search_results
                     (state (snd (exec (generate_answer env1) s1)))
                   = search_results s1)
    by apply (generate_answer_frame env1 {| state := s1; calls := [] |}).
  split; [|split; [|split; [|split]]].
  - intros llm1 p1 llm2 p2 H1 H2.
    apply generate_answer_prompts in H1. apply generate_answer_prompts in H2.
    destruct H1 as (c1 & Hc1 & ->). destruct H2 as (c2 & Hc2 & ->).
    rewrite <- Hrepr, <- Hres, Hc1 in Hc2. injection Hc2 as <-.
    exists c1. repeat split; auto.
  - intros Herr e. unfold exec. rewrite !generate_answer_cases.
    cbv zeta. cbn [state calls]. rewrite <- Hrepr, <- Hres, <- Herr.
    repeat break_match; cbn [fst]; try reflexivity;
      split; intros H; discriminate.
  - exact Hframe.
  - rewrite Hframe, Hrepr. reflexivity.
  - intros ctx Hctx. unfold format_context in Hctx.
    destruct (iter (search_results s1)) as [items|e]; cbn [obind] in Hctx;
      [|discriminate].
    destruct (format_records (repr env1) 0 items) as [rs|e] eqn:Hrs;
      cbn [obind] in Hctx; [|discriminate].
    injection Hctx as <-.
    destruct (format_records_nth _ _ _ _ Hrs) as [Hlen Hnth].
    exists items, rs. split; [reflexivity|].
    split; [apply join_blank_line|]. split; [exact Hlen|].
    intros i item Hi. destruct (Hnth i item Hi) as (r & Hr & Hri).
    cbn [Nat.add] in Hr.
    destruct (format_record_inv _ _ _ _ Hr)
      as (title & description & score & score_2f & Ht & Hd & Hs & Hf & ->).
    exists title, description, score, score_2f. repeat split; auto.
Qed.

(** Two turns on the same two candidates, one in a world where all is well
    and one where the backend is down: one block under both prompts, and
    the block of the headphones before that of the earbuds. *)
Lemma context_formatting_deterministic_witness :
  let ctx := spec.format [samples.headphones; samples.earbuds] in
  (exists ctx',
     format_context samples.simple_repr (search_results samples.first_turn)
     = Returned ctx'
     /\ make_prompt ctx "wireless headphones"
        = make_prompt ctx' (query samples.first_turn)
     /\ make_prompt ctx "which one is lighter?"
        = make_prompt ctx' (query samples.second_turn))
  /\ exists items blocks,
       iter (search_results samples.first_turn) = Returned items
       /\ ctx = spec.blank_line_separated blocks
       /\ List.length blocks = List.length items
       /\ forall i item,
            nth_error items i = Some item ->
            exists title description score score_2f,
              getitem item "title" = Returned title
              /\ getitem item "description" = Returned description
              /\ getitem item "score" = Returned score
              /\ format_spec_2f score = Returned score_2f
              /\ nth_error blocks i
                 = Some (spec.block samples.simple_repr (i + 1)
                           title description score_2f).
Proof.
  destruct (context_formatting_deterministic
              samples.all_well samples.backend_down
              samples.first_turn samples.second_turn eq_refl eq_refl)
    as (Hprompts & _ & _ & _ & Horder).
  split.
  - apply (Hprompts samples.llm _ samples.llm _);
      vm_compute; left; reflexivity.
  - apply Horder. vm_compute. reflexivity.
Defined.

Lemma search_products_returns env st :
  fst (search_products env st) = Returned (state (snd (search_products env st)))
  /\ calls (snd (search_products env st))
     = (calls st ++ [search_request env (state st)])%list.
Proof.
  rewrite search_products_cases. cbv zeta.
  repeat break_match; split; reflexivity.
Qed.

(** C6 as stated fails: after a 503 the state records the text
    [Search failed with status 503], which names none of the three
    kinds. *)
Lemma failures_classified_fails :
  ~ spec.failures_classified samples.unavailable "wireless headphones".
Proof.
  unfold spec.failures_classified. intros H.
  assert (Hk : exists k,
             spec.recorded_kind
               (error (retrieved samples.unavailable "wireless headphones"))
             = Some k).
  { apply H. vm_compute. discriminate. }
  destruct Hk as [k Hk]. vm_compute in Hk. discriminate.
Qed.

(** C6, amended.  A retrieval call sends one request, with a timeout of 10
    seconds, and never raises to its caller.  A request that raises
    (timeout, connection failure), a status other than 200, a body that
    cannot be decoded, and a decoded body without [results] or [took_ms] are
    each recorded in [error] as free text ([Search failed with status N] or
    [Search error: ...]); a recorded error is never the empty string. *)
Theorem retrieval_failures_recorded env st :
  let s := state st in
  let url := search_api_url env ++ "/search" in
  let body := {| body_query := query s; body_size := 5 |} in
  let r := search_products env st in
  let recorded := error (state (snd r)) in
  fst r = Returned (state (snd r))
  /\ calls (snd r) = (calls st ++ [HttpPost url body (10 # 1)])%list
  /\ (forall e, post env url body (10 # 1) = Raised e ->
                recorded = Some ("Search error: " ++ exn_str e))
  /\ (forall resp, post env url body (10 # 1) = Returned resp ->
        (status_code resp <> 200 ->
         recorded = Some ("Search failed with status "
                          ++ str_of_Z (status_code resp)))
        /\ (status_code resp = 200 ->
            (forall e, json resp = Raised e ->
                       recorded = Some ("Search error: " ++ exn_str e))
            /\ (forall data e, json resp = Returned data ->
                  getitem data "results" = Raised e
                  \/ getitem data "took_ms" = Raised e ->
                  exists e', recorded = Some ("Search error: " ++ exn_str e'))))
  /\ (recorded = error s \/ exists text, recorded = Some text /\ text <> "").
Proof.
  cbv zeta.
  destruct (search_products_returns env st) as [Hret Hcalls].
  split; [exact Hret|]. split; [exact Hcalls|].
  rewrite search_products_cases. cbv zeta.
  split; [|split].
  - intros e He. rewrite He. reflexivity.
  - intros resp Hresp. rewrite Hresp. split.
    + intros Hs. apply Z.eqb_neq in Hs. rewrite Hs. reflexivity.
    + intros Hs. apply Z.eqb_eq in Hs. rewrite Hs. split.
      * intros e He. rewrite He. reflexivity.
      * intros data e Hd Hg. rewrite Hd.
        destruct Hg as [Hg|Hg].
        -- rewrite Hg. eexists; reflexivity.
        -- repeat break_match; try discriminate; eexists; reflexivity.
  - repeat break_match; cbn;
      first [ left; reflexivity
            | right; eexists; split; [reflexivity | discriminate] ].
Qed.

Lemma retrieval_failures_recorded_witness :
  error (state (snd (search_products samples.unavailable
                       {| state := initial_state "wireless headphones";
                          calls := [] |})))
  = Some "Search failed with status 503".
Proof.
  destruct (retrieval_failures_recorded samples.unavailable
              {| state := initial_state "wireless headphones"; calls := [] |})
    as (_ & _ & _ & H & _).
  refine (proj1 (H {| status_code := 503;
                      json := Returned (PyDict [("detail",
                                PyStr "Elasticsearch is not available")]) |}
                   eq_refl) _).
  cbn. discriminate.
Defined.

(** A candidate without fields is no failure for [search_products]: no
    error is recorded, and the exception leaves [generate_answer]. *)
Lemma malformed_candidate_escapes :
  error (retrieved samples.malformed_candidate "wireless headphones") = None
  /\ fst (run samples.malformed_candidate "wireless headphones")
     = Raised (KeyError "title").
Proof.
  split; vm_compute; reflexivity.
Qed.

(** ** Decimal rendering *)

Lemma string_of_uint_digits d : spec.all_digits (NilEmpty.string_of_uint d) = true.
Proof.
  induction d; cbn [NilEmpty.string_of_uint spec.all_digits]; auto.
Qed.

Lemma str_of_Z_digits n :
  0 <= n ->
  exists c rest, str_of_Z n = String c rest /\ spec.all_digits (String c rest) = true.
Proof.
  intros Hn. unfold str_of_Z.
  destruct n as [|p|p]; [| |lia].
  - exists "0"%char, EmptyString. split; reflexivity.
  - cbn [Z.to_int NilZero.string_of_int].
    pose proof (string_of_uint_digits (Pos.to_uint p)) as Hd.
    unfold NilZero.string_of_uint.
    destruct (Pos.to_uint p); cbn [NilEmpty.string_of_uint] in *; eauto.
Qed.

Lemma digit_is_digit j : 0 <= j <= 9 -> spec.is_digit (digit j) = true.
Proof.
  intros H.
  assert (E : j = 0 \/ j = 1 \/ j = 2 \/ j = 3 \/ j = 4 \/ j = 5 \/ j = 6
              \/ j = 7 \/ j = 8 \/ j = 9) by lia.
  repeat (destruct E as [->|E]; [reflexivity|]). subst. reflexivity.
Qed.

Lemma is_digit_not_point c : spec.is_digit c = true -> Ascii.eqb c "." = false.
Proof.
  intros H. destruct (Ascii.eqb_spec c "."); [subst; discriminate | reflexivity].
Qed.

Lemma is_digit_not_minus c : spec.is_digit c = true -> Ascii.eqb c "-" = false.
Proof.
  intros H. destruct (Ascii.eqb_spec c "-"); [subst; discriminate | reflexivity].
Qed.

Lemma digits_point_2_app ip d1 d2 :
  spec.all_digits ip = true ->
  spec.digits_point_2 (ip ++ "." ++ String d1 (String d2 EmptyString))
  = spec.is_digit d1 && spec.is_digit d2.
Proof.
  induction ip as [|c ip IH]; intros H.
  - reflexivity.
  - cbn [spec.all_digits] in H. apply andb_prop in H. destruct H as [Hc Hip].
    cbn [append spec.digits_point_2].
    rewrite (is_digit_not_point c Hc), Hc. cbn [andb]. auto.
Qed.

Lemma round_half_even_nonneg num den :
  0 <= num -> 0 < den -> 0 <= round_half_even num den.
Proof.
  intros Hn Hd. unfold round_half_even.
  assert (0 <= num / den) by (apply Z.div_pos; lia).
  destruct (2 * (num mod den) ?= den)%Z; [destruct (Z.even _)| |]; lia.
Qed.

Lemma hundredths_nonneg m e : 0 <= hundredths m e.
Proof.
  unfold hundredths. destruct (0 <=? e)%Z eqn:He.
  - apply Z.leb_le in He.
    assert (0 <= 2 ^ e) by (apply Z.pow_nonneg; lia). nia.
  - apply Z.leb_gt in He. apply round_half_even_nonneg; [lia|].
    apply Z.pow_pos_nonneg; lia.
Qed.

Lemma two_decimal_places_sign s ip d1 d2 :
  ip <> "" ->
  spec.all_digits ip = true ->
  spec.is_digit d1 = true ->
  spec.is_digit d2 = true ->
  spec.two_decimal_places
    (sign_str s ++ ip ++ "." ++ String d1 (String d2 EmptyString)) = true.
Proof.
  intros Hne Hip H1 H2.
  destruct ip as [|c ip]; [congruence|].
  pose proof Hip as Hip'. cbn [spec.all_digits] in Hip'.
  apply andb_prop in Hip'. destruct Hip' as [Hc _].
  assert (Hbody : spec.is_digit c
                  && spec.digits_point_2
                       (String c ip ++ "." ++ String d1 (String d2 EmptyString))
                  = true).
  { rewrite digits_point_2_app by exact Hip. rewrite Hc, H1, H2. reflexivity. }
  unfold spec.two_decimal_places. destruct s; cbn [sign_str append].
  - change (Ascii.eqb "-" "-") with true. cbv iota. exact Hbody.
  - rewrite (is_digit_not_minus c Hc). exact Hbody.
Qed.

Lemma format_2f_two_decimals f :
  spec.is_finite f = true -> spec.two_decimal_places (format_2f f) = true.
Proof.
  destruct f as [s|s| |s m e]; try discriminate; intros _.
  - destruct s; reflexivity.
  - unfold format_2f. cbv zeta.
    pose proof (hundredths_nonneg m e) as Hh.
    destruct (str_of_Z_digits (hundredths m e / 100)) as (c & rest & E & Hd);
      [apply Z.div_pos; lia|].
    rewrite E. unfold two_digits.
    assert (0 <= hundredths m e mod 100 < 100) by (apply Z.mod_pos_bound; lia).
    apply two_decimal_places_sign; try exact Hd; try discriminate.
    + apply digit_is_digit.
      split; [apply Z.div_pos; lia | apply Z.lt_succ_r, Z.div_lt_upper_bound; lia].
    + apply digit_is_digit.
      pose proof (Z.mod_pos_bound (hundredths m e mod 100) 10). lia.
Qed.

(** ** The context of a typed retrieval set *)

Lemma format_record_product repr i c :
  format_record repr i (models.Product_json c)
  = Returned (spec.record (i + 1) c).
Proof. reflexivity. Qed.

Lemma format_records_products repr retrieval : forall i,
  format_records repr i (map models.Product_json retrieval)
  = Returned (spec.records (i + 1) retrieval).
Proof.
  induction retrieval as [|c rest IH]; intros i.
  - reflexivity.
  - cbn [map format_records spec.records].
    rewrite format_record_product. cbn [obind].
    rewrite IH. reflexivity.
Qed.

Lemma records_nth retrieval : forall k i c,
  nth_error retrieval i = Some c ->
  nth_error (spec.records k retrieval) i = Some (spec.record (k + i) c).
Proof.
  induction retrieval as [|c' rest IH]; intros k [|i] c H;
    cbn [nth_error spec.records] in *; try discriminate.
  - injection H as ->. rewrite Nat.add_0_r. reflexivity.
  - rewrite (IH (S k) i c H). rewrite Nat.add_succ_r. reflexivity.
Qed.

(** C7 as stated fails: a score of infinity is rendered [inf], without
    decimal places. *)
Lemma context_formatter_fails :
  ~ spec.context_formatter samples.simple_repr [samples.overflowed].
Proof.
  intros [_ H].
  specialize (H samples.overflowed (or_introl eq_refl)).
  vm_compute in H. discriminate.
Qed.

(** C7, amended.  For every retrieval set the context is the records of its
    candidates (1-based position, title, description, score) in the order of
    the set, separated by a blank line; a finite score is written with
    exactly two decimal places; the empty set gives the empty string. *)
Theorem context_formatter_finite repr retrieval :
  format_context repr (PyList (map models.Product_json retrieval))
  = Returned (spec.format retrieval)
  /\ (forall i c, nth_error retrieval i = Some c ->
        nth_error (spec.records 1 retrieval) i = Some (spec.record (i + 1) c))
  /\ (forall c, In c retrieval -> spec.is_finite (models.score c) = true ->
        spec.two_decimal_places (format_2f (models.score c)) = true)
  /\ format_context repr (PyList []) = Returned "".
Proof.
  repeat split.
  - unfold format_context. cbn [iter obind].
    rewrite format_records_products. reflexivity.
  - intros i c H. rewrite (records_nth retrieval 1 i c H).
    rewrite Nat.add_comm. reflexivity.
  - intros c _ Hf. apply format_2f_two_decimals, Hf.
Qed.

Lemma context_formatter_finite_witness :
  nth_error (spec.records 1 [samples.headphones; samples.earbuds]) 1
  = Some (spec.record 2 samples.earbuds)
  /\ spec.two_decimal_places (format_2f (models.score samples.earbuds)) = true.
Proof.
  destruct (context_formatter_finite samples.simple_repr
              [samples.headphones; samples.earbuds]) as (_ & Hn & Hd & _).
  split.
  - apply (Hn 1%nat samples.earbuds). reflexivity.
  - apply Hd; [right; left; reflexivity | vm_compute; reflexivity].
Defined.

(** ** Characters *)

Lemma group_length s : (List.length (snd (group s)) <= String.length s)%nat.
Proof.
  induction s as [|b rest IH]; cbn [group String.length]; [apply le_n|].
  destruct (group rest) as [continuation characters]. cbn [snd] in IH.
  destruct (is_continuation b); cbn [snd List.length]; lia.
Qed.

Lemma char_count_le s : (char_count s <= String.length s)%nat.
Proof.
  unfold char_count, utf8_chars. destruct s as [|b rest]; [apply le_n|].
  pose proof (group_length rest) as H.
  destruct (group rest) as [continuation characters].
  cbn [snd List.length String.length] in *. lia.
Qed.

Lemma char_count_pos s : (1 <= String.length s)%nat -> (1 <= char_count s)%nat.
Proof.
  unfold char_count, utf8_chars. destruct s as [|b rest]; cbn [String.length].
  - lia.
  - intros _. destruct (group rest). cbn [List.length]. lia.
Qed.

(** ** Request validation *)

Lemma validate_out_of_bounds r :
  (exists q, models.SearchRequest.raw_query r = models.Given q
             /\ (char_count q < 1 \/ 500 < char_count q)%nat)
  \/ (exists n, models.SearchRequest.raw_size r = models.Given n
                /\ (n < 1 \/ 100 < n)) ->
  exists errors,
    models.SearchRequest.validate r = inl errors /\ errors <> [].
Proof.
  intros Hout.
  unfold models.SearchRequest.validate,
    models.SearchRequest.validate_query, models.SearchRequest.validate_size.
  destruct Hout as [(q & Hq & Hlen) | (n & Hn & Hb)].
  - rewrite Hq.
    destruct (char_count q <? 1)%nat eqn:E1.
    + destruct (models.SearchRequest.raw_size r) as [| |n];
        [| |destruct (n <? 1)%Z; [|destruct (100 <? n)%Z]];
        eexists; split; try reflexivity; cbn; discriminate.
    + destruct (500 <? char_count q)%nat eqn:E2.
      * destruct (models.SearchRequest.raw_size r) as [| |n];
          [| |destruct (n <? 1)%Z; [|destruct (100 <? n)%Z]];
          eexists; split; try reflexivity; cbn; discriminate.
      * apply Nat.ltb_ge in E1, E2. lia.
  - rewrite Hn.
    destruct (n <? 1)%Z eqn:E1; [|destruct (100 <? n)%Z eqn:E2].
    + destruct (models.SearchRequest.raw_query r) as [| |q];
        [| |destruct (char_count q <? 1)%nat;
            [|destruct (500 <? char_count q)%nat]];
        eexists; split; try reflexivity; cbn; discriminate.
    + destruct (models.SearchRequest.raw_query r) as [| |q];
        [| |destruct (char_count q <? 1)%nat;
            [|destruct (500 <? char_count q)%nat]];
        eexists; split; try reflexivity; cbn; discriminate.
    + apply Z.ltb_ge in E1, E2. lia.
Qed.

(** The assistant does not validate the message itself: a query out of
    bounds is sent, refused by the route, and comes back as a retrieval
    error. *)
Lemma invalid_query_is_a_retrieval_error es env content :
  (char_count content < 1 \/ 500 < char_count content)%nat ->
  run (main.deployed es env) content
  = (Returned {| query := content; search_results := PyList [];
                 answer := "Sorry, I encountered an error: "
                           ++ "Search failed with status 422";
                 error := Some "Search failed with status 422" |},
     [search_request (main.deployed es env) (initial_state content)]).
Proof.
  intros Hlen.
  assert (Hpost : post (main.deployed es env)
                    (search_api_url (main.deployed es env) ++ "/search")
                    {| body_query := content; body_size := 5 |} (10 # 1)
                  = Returned {| status_code := 422;
                                json := Returned (PyDict [("detail",
                                          PyList [PyDict []])]) |}).
  { cbn [main.deployed post]. unfold main.post_search,
      models.SearchRequest.validate, models.SearchRequest.validate_query,
      models.SearchRequest.validate_size.
    cbn [models.SearchRequest.raw_query models.SearchRequest.raw_size
         body_query body_size].
    change (5 <? 1)%Z with false. change (100 <? 5)%Z with false. cbv iota.
    destruct (char_count content <? 1)%nat eqn:E1; [reflexivity|].
    destruct (500 <? char_count content)%nat eqn:E2; [reflexivity|].
    apply Nat.ltb_ge in E1, E2. lia. }
  rewrite run_eq, search_products_cases. cbv zeta.
  cbn [state initial_state query calls app].
  rewrite Hpost. cbn [status_code].
  change (422 =? 200)%Z with false. cbv iota.
  rewrite generate_answer_cases. reflexivity.
Qed.

(** C9 as stated fails: a query of 501 characters is not rejected before
    the pipeline runs; the pipeline sends it to the search API. *)
Lemma rejected_before_the_pipeline_fails :
  ~ spec.rejected_before_the_pipeline
      (main.deployed samples.cluster samples.all_well)
      more_samples.long_query.
Proof.
  unfold spec.rejected_before_the_pipeline. intros H.
  destruct H as [H _].
  - right. apply Nat.ltb_lt. vm_compute. reflexivity.
  - vm_compute in H. discriminate.
Qed.

(** C9, amended.  At the search endpoint, a query shorter than 1 or longer
    than 500 characters, or a size outside 1..100, fails validation: the
    route answers 422 and the handler does not run (no call to the index);
    a valid query with the size left out gives a request of size 10, and
    with a size within the bounds, that size.  The assistant's pipeline
    does not validate the query: it runs, sends the query, and the refusal
    comes back as the retrieval error [Search failed with status 422]. *)
Theorem search_request_validation es r :
  let out_of_bounds :=
    (exists q, models.SearchRequest.raw_query r = models.Given q
               /\ (char_count q < 1 \/ 500 < char_count q)%nat)
    \/ (exists n, models.SearchRequest.raw_size r = models.Given n
                  /\ (n < 1 \/ 100 < n)) in
  (out_of_bounds ->
   exists errors,
     models.SearchRequest.validate r = inl errors
     /\ errors <> []
     /\ status_code (fst (main.post_search es r)) = 422
     /\ snd (main.post_search es r) = [])
  /\ (forall q, models.SearchRequest.raw_query r = models.Given q ->
        (1 <= char_count q <= 500)%nat ->
        (models.SearchRequest.raw_size r = models.Omitted ->
         models.SearchRequest.validate r
         = inr {| models.SearchRequest.query := q;
                  models.SearchRequest.size := Some 10 |})
        /\ (forall n, models.SearchRequest.raw_size r = models.Given n ->
              1 <= n <= 100 ->
              models.SearchRequest.validate r
              = inr {| models.SearchRequest.query := q;
                       models.SearchRequest.size := Some n |}))
  /\ (forall env content,
        (char_count content < 1 \/ 500 < char_count content)%nat ->
        run (main.deployed es env) content
        = (Returned {| query := content; search_results := PyList [];
                       answer := "Sorry, I encountered an error: "
                                 ++ "Search failed with status 422";
                       error := Some "Search failed with status 422" |},
           [search_request (main.deployed es env) (initial_state content)])).
Proof.
  cbv zeta. split; [|split].
  - intros Hout.
    destruct (validate_out_of_bounds r Hout) as (errors & Hv & Hne).
    exists errors. unfold main.post_search. rewrite Hv.
    repeat split; auto.
  - intros q Hq [Hlo Hhi].
    assert (E1 : (char_count q <? 1)%nat = false) by (apply Nat.ltb_ge; lia).
    assert (E2 : (500 <? char_count q)%nat = false) by (apply Nat.ltb_ge; lia).
    unfold models.SearchRequest.validate,
      models.SearchRequest.validate_query, models.SearchRequest.validate_size.
    rewrite Hq, E1, E2. split.
    + intros ->. reflexivity.
    + intros n -> [Hn1 Hn2].
      assert (E3 : (n <? 1)%Z = false) by (apply Z.ltb_ge; lia).
      assert (E4 : (100 <? n)%Z = false) by (apply Z.ltb_ge; lia).
      rewrite E3, E4. reflexivity.
  - intros env content Hlen.
    apply invalid_query_is_a_retrieval_error, Hlen.
Qed.

(** A query of 300 two-byte characters is within the bounds. *)
Lemma search_request_validation_witness :
  models.SearchRequest.validate more_samples.accented_request
  = inr {| models.SearchRequest.query := more_samples.accented_query;
           models.SearchRequest.size := Some 10 |}
  /\ exists errors,
       models.SearchRequest.validate samples.empty_query = inl errors
       /\ errors <> []
       /\ status_code (fst (main.post_search samples.cluster samples.empty_query))
          = 422
       /\ snd (main.post_search samples.cluster samples.empty_query) = [].
Proof.
  split.
  - refine (proj1 (proj1 (proj2 (search_request_validation samples.cluster
                                   more_samples.accented_request))
                     more_samples.accented_query eq_refl _) eq_refl).
    split; apply Nat.leb_le; vm_compute; reflexivity.
  - apply (proj1 (search_request_validation samples.cluster samples.empty_query)).
    left. exists "". split; [reflexivity | left; cbn; lia].
Defined.

(** ** The assistant in front of the search endpoint *)

(** C2 fails on the code.  Whatever the index holds, when it is reachable
    and the query is valid, the endpoint answers with an empty result list:
    the run ends with an empty retrieval set and the no-match message. *)
Theorem search_endpoint_returns_nothing es env content :
  elasticsearch_client.ping es = Returned true ->
  elasticsearch_client.indices_exists es = Returned true ->
  (1 <= String.length content <= 500)%nat ->
  run (main.deployed es env) content
  = (Returned {| query := content; search_results := PyList [];
                 answer := no_match_message; error := None |},
     [search_request (main.deployed es env) (initial_state content)]).
Proof.
  intros Hping Hidx [Hlo Hhi].
  pose proof (char_count_le content) as Hle.
  pose proof (char_count_pos content Hlo) as Hpos.
  assert (E1 : (char_count content <? 1)%nat = false) by (apply Nat.ltb_ge; lia).
  assert (E2 : (500 <? char_count content)%nat = false) by (apply Nat.ltb_ge; lia).
  rewrite run_eq, search_products_cases. cbv zeta.
  cbn [main.deployed post state initial_state query calls app].
  unfold main.post_search, models.SearchRequest.validate,
    models.SearchRequest.validate_query, models.SearchRequest.validate_size.
  cbn [models.SearchRequest.raw_query models.SearchRequest.raw_size
       body_query body_size].
  rewrite E1, E2.
  change (5 <? 1)%Z with false. change (100 <? 5)%Z with false. cbv iota.
  unfold main.search_products, elasticsearch_client.is_connected,
    elasticsearch_client.index_exists.
  rewrite Hping, Hidx. cbn [negb fst status_code json].
  change (200 =? 200)%Z with true. cbv iota.
  change (getitem (models.SearchResponse_json _) "results")
    with (Returned (PyList [])).
  cbv iota. cbn [len]. 
  change (getitem (models.SearchResponse_json _) "took_ms")
    with (Returned (PyInt 0)).
  cbv iota.
  rewrite generate_answer_cases. reflexivity.
Qed.

Lemma search_endpoint_returns_nothing_witness :
  fst (run (main.deployed samples.cluster samples.all_well) "wireless headphones")
  = Returned {| query := "wireless headphones"; search_results := PyList [];
                answer := no_match_message; error := None |}.
Proof.
  rewrite (search_endpoint_returns_nothing samples.cluster samples.all_well
             "wireless headphones");
    try reflexivity.
  cbn; lia.
Defined.

(* ================================================================== *)
(** * Further properties of the pipeline *)
(* ================================================================== *)

(** ** What a run sends, and when it raises *)

Lemma get_llm_cases env :
  (exists key, getenv env "GROQ_API_KEY" = Some key
               /\ get_llm env = Returned (shapes.groq key))
  \/ exists e, get_llm env = Raised e.
Proof.
  unfold get_llm. destruct (getenv env "GROQ_API_KEY") as [[|c k]|]; cbn; eauto.
Qed.

(** After the retrieval stage, a state without error has a retrieval set
    that [len] accepts. *)
Lemma retrieved_len env content :
  error (retrieved env content) = None ->
  exists n, len (search_results (retrieved env content)) = Returned n.
Proof.
  unfold retrieved, exec. rewrite search_products_cases. cbv zeta.
  cbn [state initial_state query search_results error].
  repeat break_match; cbn; intros H; try discriminate; eauto.
Qed.

Lemma run_call_discipline_aux env content :
  exists rest,
    snd (run env content) = search_request env (initial_state content) :: rest
    /\ (rest = []
        \/ exists key ctx,
             getenv env "GROQ_API_KEY" = Some key
             /\ format_context (repr env) (search_results (retrieved env content))
                = Returned ctx
             /\ truthy (search_results (retrieved env content)) = true
             /\ rest = [LlmInvoke (shapes.groq key) (make_prompt ctx content)]).
Proof.
  destruct (run_generate env content) as (st1 & Hs & Hc & Hq & He & Hrun).
  rewrite <- Hs, Hrun, generate_answer_cases. cbv zeta. rewrite Hq, Hc.
  clear Hrun Hs He.
  destruct (truthy_str (error (state st1))); [cbn; eauto|].
  destruct (truthy (search_results (state st1))) eqn:Htr; [|cbn; eauto].
  cbn [negb].
  destruct (len (search_results (state st1))); [|cbn; rewrite Hc; eauto].
  destruct (format_context (repr env) (search_results (state st1))) as [ctx|e];
    [|cbn; rewrite Hc; eauto].
  destruct (get_llm_cases env) as [(key & Hk & ->) | (e & ->)]; [|cbn; eauto].
  destruct (invoke env _ _); cbn; eexists; (split; [reflexivity|]);
    right; exists key, ctx; auto.
Qed.

(** X1.  Every run sends exactly one search request, first, for the user's
    text with size 5 and a timeout of 10 seconds, and at most one call to
    the generation backend after it; that call, when made, goes to the model
    [llama-3.3-70b-versatile] at temperature 0.7 with the credential of the
    environment, and its prompt is [make_prompt] of the rendered context and
    the user's text. *)
Theorem run_call_discipline env content :
  exists rest,
    snd (run env content) = search_request env (initial_state content) :: rest
    /\ (rest = []
        \/ exists key ctx,
             getenv env "GROQ_API_KEY" = Some key
             /\ format_context (repr env) (search_results (retrieved env content))
                = Returned ctx
             /\ rest = [LlmInvoke (shapes.groq key) (make_prompt ctx content)]).
Proof.
  destruct (run_call_discipline_aux env content) as (rest & Hcalls & Hrest).
  exists rest. split; [exact Hcalls|].
  destruct Hrest as [-> | (key & ctx & Hk & Hctx & _ & ->)]; [left; reflexivity|].
  right. exists key, ctx. auto.
Qed.

(** X2.  A run raises exactly when the retrieval stage set no error, left a
    non-empty retrieval set, and rendering that set into the context raises;
    the exception of the run is then the exception of the rendering. *)
Theorem run_raises_iff env content e :
  fst (run env content) = Raised e <->
  error (retrieved env content) = None
  /\ truthy (search_results (retrieved env content)) = true
  /\ format_context (repr env) (search_results (retrieved env content))
     = Raised e.
Proof.
  destruct (run_generate env content) as (st1 & Hs & Hc & Hq & He & Hrun).
  pose proof (retrieved_len env content) as Hlen.
  rewrite <- Hs in *. rewrite Hrun, generate_answer_cases. cbv zeta.
  clear Hrun Hs.
  destruct He as [He | (err & He & Ht)].
  - rewrite He. cbn [truthy_str]. destruct (Hlen He) as [n Hn]. rewrite Hn.
    destruct (truthy (search_results (state st1))); cbn [negb].
    + destruct (format_context (repr env) (search_results (state st1)))
        as [ctx|e'].
      * destruct (get_llm env) as [llm|e'']; [destruct (invoke env llm _)|];
          cbn; split; [discriminate | intros (_ & _ & H); discriminate
                      | discriminate | intros (_ & _ & H); discriminate
                      | discriminate | intros (_ & _ & H); discriminate].
      * cbn. split; [intros [= ->]; auto | intros (_ & _ & [= ->]); reflexivity].
    + cbn. split; [discriminate | intros (_ & H & _); discriminate].
  - rewrite He, Ht. cbn. split; [discriminate | intros (H & _); discriminate].
Qed.

(** X3.  When the retrieval set renders, the credential is there and the
    backend answers, the answer of the run is the backend's text as it is;
    the query and the retrieval set are returned unchanged and no error is
    set. *)
Theorem backend_reply_is_the_answer env content ctx llm reply :
  let s1 := retrieved env content in
  error s1 = None ->
  truthy (search_results s1) = true ->
  format_context (repr env) (search_results s1) = Returned ctx ->
  get_llm env = Returned llm ->
  invoke env llm (make_prompt ctx content) = Returned reply ->
  run env content
  = (Returned {| query := content; search_results := search_results s1;
                 answer := reply; error := None |},
     [search_request env (initial_state content);
      LlmInvoke llm (make_prompt ctx content)]).
Proof.
  cbv zeta. intros Herr Htr Hctx Hllm Hinv.
  destruct (run_generate env content) as (st1 & Hs & Hc & Hq & He & Hrun).
  rewrite <- Hs in *. clear Hs He.
  rewrite Hrun, generate_answer_cases. cbv zeta.
  rewrite Herr, Htr, Hctx, Hllm, Hq, Hinv, Hc. cbn [truthy_str negb].
  destruct (format_context_len _ _ _ Hctx) as [n Hn]. rewrite Hn.
  cbn. unfold with_answer. rewrite Hq, Herr. reflexivity.
Qed.

Lemma backend_reply_is_the_answer_witness :
  fst (run samples.all_well "wireless headphones")
  = Returned {| query := "wireless headphones";
                search_results :=
                  PyList (map models.Product_json
                            [samples.headphones; samples.earbuds]);
                answer := "The Sony WH-1000XM5 is the closest match.";
                error := None |}.
Proof.
  rewrite (backend_reply_is_the_answer samples.all_well "wireless headphones"
             (spec.format [samples.headphones; samples.earbuds])
             samples.llm "The Sony WH-1000XM5 is the closest match.");
    vm_compute; reflexivity.
Defined.

(** X4.  A 200 response whose body has [results] but no [took_ms] leaves
    both the results and an error in the state: [search_results] is set
    before the log line raises [KeyError].  The run then answers with the
    error report, without calling the backend. *)
Theorem missing_took_ms_keeps_results env content response data results n e :
  post env (search_api_url env ++ "/search")
    {| body_query := content; body_size := 5 |} (10 # 1) = Returned response ->
  status_code response = 200 ->
  json response = Returned data ->
  getitem data "results" = Returned results ->
  len results = Returned n ->
  getitem data "took_ms" = Raised e ->
  let report := "Search error: " ++ exn_str e in
  retrieved env content
  = {| query := content; search_results := results; answer := "";
       error := Some report |}
  /\ run env content
     = (Returned {| query := content; search_results := results;
                    answer := "Sorry, I encountered an error: " ++ report;
                    error := Some report |},
        [search_request env (initial_state content)]).
Proof.
  intros Hpost Hst Hjson Hres Hlen Htook. cbv zeta.
  assert (Hret : retrieved env content
                 = {| query := content; search_results := results; answer := "";
                      error := Some ("Search error: " ++ exn_str e) |}).
  { unfold retrieved, exec. rewrite search_products_cases. cbv zeta.
    cbn [state initial_state query]. rewrite Hpost, Hst.
    change (200 =? 200)%Z with true. cbv iota.
    rewrite Hjson, Hres, Hlen, Htook. reflexivity. }
  split; [exact Hret|].
  destruct (run_generate env content) as (st1 & Hs & Hc & Hq & He & Hrun).
  rewrite Hrun, generate_answer_cases. cbv zeta.
  rewrite Hs, Hret, Hc. reflexivity.
Qed.

Lemma missing_took_ms_keeps_results_witness :
  search_results (retrieved more_samples.no_took_ms "wireless headphones")
  = PyList (map models.Product_json [samples.headphones])
  /\ error (retrieved more_samples.no_took_ms "wireless headphones")
     = Some "Search error: 'took_ms'".
Proof.
  destruct (missing_took_ms_keeps_results more_samples.no_took_ms "wireless headphones"
              {| status_code := 200;
                 json := Returned (PyDict [("results",
                           PyList (map models.Product_json [samples.headphones]))]) |}
              (PyDict [("results",
                 PyList (map models.Product_json [samples.headphones]))])
              (PyList (map models.Product_json [samples.headphones]))
              1%nat (KeyError "took_ms")
              eq_refl eq_refl eq_refl eq_refl eq_refl eq_refl) as [H _].
  rewrite H. split; reflexivity.
Defined.

(** X21.  When the request raises, the status is not 200, the body cannot
    be decoded or the body has no [results], the retrieval stage leaves
    [search_results] as it found it and sets an error. *)
Theorem early_failure_keeps_search_results env st :
  let url := search_api_url env ++ "/search" in
  let body := {| body_query := query (state st); body_size := 5 |} in
  let after_ := state (snd (search_products env st)) in
  (forall e, post env url body (10 # 1) = Raised e ->
             search_results after_ = search_results (state st)
             /\ error after_ <> None)
  /\ (forall response, post env url body (10 # 1) = Returned response ->
        status_code response <> 200
        \/ (exists e, json response = Raised e)
        \/ (exists data e, json response = Returned data
                           /\ getitem data "results" = Raised e) ->
        search_results after_ = search_results (state st)
        /\ error after_ <> None).
Proof.
  cbv zeta. rewrite search_products_cases. cbv zeta. split.
  - intros e ->. split; [reflexivity | discriminate].
  - intros response -> H.
    destruct (status_code response =? 200)%Z eqn:Hs.
    + destruct H as [H | [(e & ->) | (data & e & -> & ->)]].
      * apply Z.eqb_eq in Hs. contradiction.
      * split; [reflexivity | discriminate].
      * split; [reflexivity | discriminate].
    + split; [reflexivity | discriminate].
Qed.

Lemma early_failure_keeps_search_results_witness :
  search_results
    (state (snd (search_products samples.timed_out
                   {| state := samples.second_turn; calls := [] |})))
  = search_results samples.second_turn.
Proof.
  apply (proj1 (early_failure_keeps_search_results samples.timed_out
                  {| state := samples.second_turn; calls := [] |})
           (Exn "ReadTimeout" "")).
  reflexivity.
Defined.

(** X5.  Whatever list of products a 200 response of the search API
    carries, however long, the retrieval stage keeps all of it in the order
    received, and the prompt sent to the backend is built on the context of
    exactly that list. *)
Theorem received_candidates_reach_the_prompt env content response r llm :
  post env (search_api_url env ++ "/search")
    {| body_query := content; body_size := 5 |} (10 # 1) = Returned response ->
  status_code response = 200 ->
  json response = Returned (models.SearchResponse_json r) ->
  models.results r <> [] ->
  get_llm env = Returned llm ->
  search_results (retrieved env content)
  = PyList (map models.Product_json (models.results r))
  /\ snd (run env content)
     = [search_request env (initial_state content);
        LlmInvoke llm (make_prompt (spec.format (models.results r)) content)].
Proof.
  intros Hpost Hst Hjson Hne Hllm.
  assert (Hret : retrieved env content
                 = {| query := content;
                      search_results :=
                        PyList (map models.Product_json (models.results r));
                      answer := ""; error := None |}).
  { unfold retrieved, exec. rewrite search_products_cases. cbv zeta.
    cbn [state initial_state query]. rewrite Hpost, Hst.
    change (200 =? 200)%Z with true. cbv iota.
    rewrite Hjson. reflexivity. }
  split; [rewrite Hret; reflexivity|].
  destruct (run_generate env content) as (st1 & Hs & Hc & Hq & He & Hrun).
  rewrite Hrun, generate_answer_cases. cbv zeta.
  rewrite Hs, Hret, Hc, Hllm. cbn [error search_results query truthy_str].
  destruct (models.results r) as [|p ps] eqn:Hr; [congruence|].
  cbn [map truthy negb len].
  unfold format_context. cbn [iter obind].
  rewrite <- (map_cons models.Product_json p ps).
  rewrite format_records_products. cbn [obind].
  change (join (nl ++ nl) (spec.records (0 + 1) (p :: ps)))
    with (spec.format (p :: ps)).
  destruct (invoke env llm _); reflexivity.
Qed.

Lemma received_candidates_reach_the_prompt_witness :
  snd (run samples.all_well "wireless headphones")
  = [search_request samples.all_well (initial_state "wireless headphones");
     LlmInvoke samples.llm
       (make_prompt (spec.format [samples.headphones; samples.earbuds])
          "wireless headphones")].
Proof.
  refine (proj2 (received_candidates_reach_the_prompt samples.all_well
            "wireless headphones"
            {| status_code := 200;
               json := Returned (samples.ok_body
                         (map models.Product_json
                            [samples.headphones; samples.earbuds])) |}
            {| models.query := "wireless headphones"; models.total_hits := 2;
               models.results := [samples.headphones; samples.earbuds];
               models.took_ms := 42 |}
            samples.llm eq_refl eq_refl eq_refl _ eq_refl)).
  discriminate.
Defined.

(** ** What the context accepts *)

Lemma format_record_shape repr i v r :
  format_record repr i v = Returned r -> shapes.candidate_shape v.
Proof.
  unfold format_record, shapes.candidate_shape, getitem.
  destruct v as [| | | | |l|d]; cbn [obind type_name]; try discriminate.
  destruct (dict_get d "title") as [t|] eqn:Ht; cbn [obind]; [|discriminate].
  destruct (dict_get d "description") as [ds|] eqn:Hd; cbn [obind];
    [|discriminate].
  destruct (dict_get d "score") as [sc|] eqn:Hs; cbn [obind]; [|discriminate].
  intros H. exists d, t, ds, sc. repeat split; auto.
  destruct sc; cbn in H; try discriminate; reflexivity.
Qed.

Lemma format_records_shape repr items : forall i rs,
  format_records repr i items = Returned rs ->
  Forall shapes.candidate_shape items.
Proof.
  induction items as [|x rest IH]; intros i rs H.
  - constructor.
  - cbn [format_records] in H.
    destruct (format_record repr i x) as [r|e] eqn:Hr; cbn [obind] in H;
      [|discriminate].
    destruct (format_records repr (S i) rest) as [rs'|e] eqn:Hrs;
      cbn [obind] in H; [|discriminate].
    constructor; [eapply format_record_shape; eauto | eapply IH; eauto].
Qed.

(** A context is rendered from a list only; its elements have the shape of
    a candidate. *)
Lemma format_context_shape repr v ctx :
  format_context repr v = Returned ctx ->
  truthy v = true ->
  exists x rest, v = PyList (x :: rest)
                 /\ Forall shapes.candidate_shape (x :: rest).
Proof.
  unfold format_context. intros H Ht.
  destruct v as [| | | |s|l|d]; cbn [iter obind] in H; try discriminate.
  - destruct s as [|c s]; [discriminate|].
    unfold chars, utf8_chars in H. destruct (group s) as [k cs].
    cbn in H. discriminate.
  - destruct l as [|x rest]; [discriminate|].
    destruct (format_records repr 0 (x :: rest)) as [rs|e] eqn:Hrs;
      cbn [obind] in H; [|discriminate].
    exists x, rest. split; [reflexivity|].
    eapply format_records_shape; eauto.
  - destruct d as [|[k v] d]; [discriminate|]. cbn in H. discriminate.
Qed.

(** X6.  Whenever the backend is called, the retrieval set is a non-empty
    list of dicts that each have a [title], a [description] and a numeric
    [score]. *)
Theorem backend_sees_well_shaped_candidates env content llm prompt :
  In (LlmInvoke llm prompt) (snd (run env content)) ->
  exists x rest,
    search_results (retrieved env content) = PyList (x :: rest)
    /\ Forall shapes.candidate_shape (x :: rest).
Proof.
  intros Hin.
  destruct (run_call_discipline_aux env content) as (rest & Hcalls & Hrest).
  rewrite Hcalls in Hin. destruct Hin as [Hin|Hin]; [discriminate|].
  destruct Hrest as [-> | (key & ctx & _ & Hctx & Htr & ->)]; [contradiction|].
  eapply format_context_shape; eauto.
Qed.

Lemma backend_sees_well_shaped_candidates_witness :
  exists x rest,
    search_results (retrieved samples.all_well "wireless headphones")
    = PyList (x :: rest)
    /\ Forall shapes.candidate_shape (x :: rest).
Proof.
  apply (backend_sees_well_shaped_candidates samples.all_well
           "wireless headphones" samples.llm
           (make_prompt (spec.format [samples.headphones; samples.earbuds])
              "wireless headphones")).
  vm_compute. right. left. reflexivity.
Defined.

Lemma format_records_first_failure repr good bad rest e : forall i rs,
  format_records repr i good = Returned rs ->
  format_record repr (i + List.length good) bad = Raised e ->
  format_records repr i (good ++ bad :: rest) = Raised e.
Proof.
  induction good as [|x good IH]; intros i rs Hgood Hbad.
  - cbn [List.length] in Hbad. rewrite Nat.add_0_r in Hbad.
    cbn [app format_records]. rewrite Hbad. reflexivity.
  - cbn [app format_records] in *.
    destruct (format_record repr i x) as [r|e']; cbn [obind] in *;
      [|discriminate].
    destruct (format_records repr (S i) good) as [rs'|e'] eqn:Hrs;
      cbn [obind] in *; [|discriminate].
    rewrite (IH (S i) rs' Hrs); [reflexivity|].
    cbn [List.length] in Hbad. rewrite Nat.add_succ_r in Hbad. exact Hbad.
Qed.

(** X7.  When the candidates before it render, the first candidate that
    does not decides the exception of the context: [KeyError] on [title],
    [description] or [score], in that order, for a dict without that key,
    and in general the exception of its own record. *)
Theorem context_fails_at_first_bad_candidate repr good bad rest rs :
  format_records repr 0 good = Returned rs ->
  (forall d, bad = PyDict d -> dict_get d "title" = None ->
     format_context repr (PyList (good ++ bad :: rest))
     = Raised (KeyError "title"))
  /\ (forall d t, bad = PyDict d -> dict_get d "title" = Some t ->
        dict_get d "description" = None ->
        format_context repr (PyList (good ++ bad :: rest))
        = Raised (KeyError "description"))
  /\ (forall d t ds, bad = PyDict d -> dict_get d "title" = Some t ->
        dict_get d "description" = Some ds -> dict_get d "score" = None ->
        format_context repr (PyList (good ++ bad :: rest))
        = Raised (KeyError "score"))
  /\ (forall e, format_record repr (List.length good) bad = Raised e ->
        format_context repr (PyList (good ++ bad :: rest)) = Raised e).
Proof.
  intros Hgood.
  assert (Hgen : forall e, format_record repr (List.length good) bad = Raised e ->
                   format_context repr (PyList (good ++ bad :: rest)) = Raised e).
  { intros e He. unfold format_context. cbn [iter obind].
    rewrite (format_records_first_failure repr good bad rest e 0 rs Hgood He).
    reflexivity. }
  repeat split.
  - intros d -> Ht. apply Hgen. unfold format_record, getitem. rewrite Ht.
    reflexivity.
  - intros d t -> Ht Hd. apply Hgen. unfold format_record, getitem.
    rewrite Ht, Hd. reflexivity.
  - intros d t ds -> Ht Hd Hs. apply Hgen. unfold format_record, getitem.
    rewrite Ht, Hd, Hs. reflexivity.
  - exact Hgen.
Qed.

Lemma context_fails_at_first_bad_candidate_witness :
  format_context samples.simple_repr
    (PyList (map models.Product_json [samples.headphones]
             ++ PyDict [("title", PyStr "Bluetooth Earbuds")]
             :: map models.Product_json [samples.earbuds]))
  = Raised (KeyError "description").
Proof.
  destruct (context_fails_at_first_bad_candidate samples.simple_repr
              (map models.Product_json [samples.headphones])
              (PyDict [("title", PyStr "Bluetooth Earbuds")])
              (map models.Product_json [samples.earbuds])
              [spec.record 1 samples.headphones] eq_refl) as (_ & H & _).
  apply (H [("title", PyStr "Bluetooth Earbuds")] (PyStr "Bluetooth Earbuds"));
    reflexivity.
Defined.

(** ** The chat handlers *)

Import chainlit_events.

Lemma string_app_assoc (a b c : string) : (a ++ b) ++ c = a ++ b ++ c.
Proof.
  induction a as [|x a IH]; cbn [append]; [reflexivity | rewrite IH; reflexivity].
Qed.

Lemma string_app_nil_r (a : string) : a ++ "" = a.
Proof.
  induction a as [|x a IH]; cbn [append]; [reflexivity | rewrite IH; reflexivity].
Qed.

Lemma results_line_of_record repr i j v r :
  format_record repr i v = Returned r ->
  exists line, results_line repr j v = Returned line.
Proof.
  unfold format_record, results_line.
  destruct (getitem v "title"); cbn [obind]; [|discriminate].
  destruct (getitem v "description"); cbn [obind]; [|discriminate].
  destruct (getitem v "score") as [sc|]; cbn [obind]; [|discriminate].
  destruct (format_spec_2f sc); cbn [obind]; [|discriminate].
  eauto.
Qed.

Lemma results_lines_of_records repr items : forall i j rs acc,
  format_records repr i items = Returned rs ->
  exists text, results_lines repr j items acc = Returned text.
Proof.
  induction items as [|x rest IH]; intros i j rs acc H.
  - cbn. eauto.
  - cbn [format_records] in H.
    destruct (format_record repr i x) as [r|e] eqn:Hr; cbn [obind] in H;
      [|discriminate].
    destruct (format_records repr (S i) rest) as [rs'|e] eqn:Hrs;
      cbn [obind] in H; [|discriminate].
    destruct (results_line_of_record repr i j x r Hr) as [line Hl].
    cbn [results_lines]. rewrite Hl. cbn [obind]. eapply IH; eauto.
Qed.

(** A set the context was rendered from can be listed. *)
Lemma results_text_of_context repr v ctx :
  format_context repr v = Returned ctx ->
  exists text, results_text repr v = Returned text.
Proof.
  intros H. unfold results_text.
  destruct (format_context_len _ _ _ H) as [n Hn]. rewrite Hn. cbn [obind].
  unfold format_context in H.
  destruct (iter v) as [items|e]; cbn [obind] in *; [|discriminate].
  destruct (format_records repr 0 items) as [rs|e] eqn:Hrs; cbn [obind] in H;
    [|discriminate].
  eapply results_lines_of_records; eauto.
Qed.

(** A run that returns without error has rendered its retrieval set, when
    the set is not empty. *)
Lemma run_returned_rendered env content s cs :
  run env content = (Returned s, cs) ->
  error s = None ->
  truthy (search_results s) = true ->
  exists ctx, format_context (repr env) (search_results s) = Returned ctx.
Proof.
  destruct (run_generate env content) as (st1 & Hs & Hc & Hq & He & Hrun).
  rewrite Hrun, generate_answer_cases. cbv zeta. clear Hrun.
  destruct (truthy_str (error (state st1))) eqn:Ht.
  - intros [= <- <-]. cbn. intros Herr. rewrite Herr in Ht. discriminate.
  - destruct (truthy (search_results (state st1))) eqn:Htr; cbn [negb].
    + destruct (len (search_results (state st1))); [|discriminate].
      destruct (format_context (repr env) (search_results (state st1)))
        as [ctx|e] eqn:Hctx; [|discriminate].
      destruct (get_llm env) as [llm|e]; [destruct (invoke env llm _)|];
        intros [= <- <-]; cbn; eauto.
    + intros [= <- <-]. cbn. intros _ H. congruence.
Qed.

(** X8.  Whatever the session holds and whatever the run does, the handler
    first shows the placeholder message, removes it, and ends by sending
    one last message: either the answer, under the author [AI Assistant], or
    the notice that an error occurred. *)
Theorem handler_always_replies env user_session content :
  exists middle final,
    fst (main env user_session content)
    = Send thinking_msg :: (middle ++ [Send final])%list
    /\ In (Remove thinking_msg) middle
    /\ (author final = Some "AI Assistant" \/ exists e, final = error_notice e).
Proof.
  unfold main. cbv zeta.
  destruct user_session as [agent|].
  - destruct (ainvoke agent (initial_state content)) as [[result|e] cs].
    + destruct (truthy (search_results result)).
      * destruct (results_text (repr env) (search_results result)) as [text|e].
        -- eexists [Remove thinking_msg; Send _], _. cbn.
           split; [reflexivity|]. split; [left; reflexivity|]. left. reflexivity.
        -- eexists [Remove thinking_msg; Remove thinking_msg], _. cbn.
           split; [reflexivity|]. split; [left; reflexivity|]. right. eauto.
      * eexists [Remove thinking_msg], _. cbn.
        split; [reflexivity|]. split; [left; reflexivity|]. left. reflexivity.
    + eexists [Remove thinking_msg], _. cbn.
      split; [reflexivity|]. split; [left; reflexivity|]. right. eauto.
  - eexists [Remove thinking_msg], _. cbn.
    split; [reflexivity|]. split; [left; reflexivity|]. right. eauto.
Qed.

(** X9.  In a session started by [start], the handler makes the calls of
    the run and no other.  When the run raises, the user gets the error
    notice with the exception's text.  When the run returns without error,
    the user gets the answer, preceded by the result list under the author
    [Search Engine] exactly when the retrieval set is not empty: the list
    never fails on a set the generation stage has rendered. *)
Theorem handler_shows_the_run env content :
  let shown := fst (main env (fst (start env)) content) in
  snd (main env (fst (start env)) content) = snd (run env content)
  /\ (forall e, fst (run env content) = Raised e ->
        shown = [Send thinking_msg; Remove thinking_msg; Send (error_notice e)])
  /\ (forall s, fst (run env content) = Returned s -> error s = None ->
        let reply := Send {| content := answer s;
                             author := Some "AI Assistant" |} in
        (truthy (search_results s) = false ->
         shown = [Send thinking_msg; Remove thinking_msg; reply])
        /\ (truthy (search_results s) = true ->
            exists text,
              results_text (repr env) (search_results s) = Returned text
              /\ shown = [Send thinking_msg; Remove thinking_msg;
                          Send {| content := text;
                                  author := Some "Search Engine" |};
                          reply])).
Proof.
  cbv zeta. unfold start, main. cbn [fst].
  change (ainvoke (create_agent_graph env) (initial_state content))
    with (run env content).
  destruct (run env content) as [[s|e] cs] eqn:Hrun.
  - split; [destruct (truthy (search_results s));
            [destruct (results_text _ _)|]; reflexivity|].
    split; [discriminate|].
    intros s' [= <-] Herr. split.
    + intros Htr. rewrite Htr. reflexivity.
    + intros Htr. rewrite Htr.
      destruct (run_returned_rendered env content s cs Hrun Herr Htr)
        as [ctx Hctx].
      destruct (results_text_of_context _ _ _ Hctx) as [text Htext].
      rewrite Htext. exists text. split; reflexivity.
  - split; [reflexivity|]. split; [|discriminate].
    intros e' [= <-]. reflexivity.
Qed.

Lemma handler_shows_the_run_witness :
  fst (main samples.all_well (fst (start samples.all_well)) "wireless headphones")
  = [Send thinking_msg; Remove thinking_msg;
     Send {| content :=
               "**Found 2 relevant products**" ++ nl ++ nl
               ++ shapes.listing_lines 1 [samples.headphones; samples.earbuds];
             author := Some "Search Engine" |};
     Send {| content := "The Sony WH-1000XM5 is the closest match.";
             author := Some "AI Assistant" |}].
Proof.
  destruct (handler_shows_the_run samples.all_well "wireless headphones")
    as (_ & _ & H).
  destruct (H {| query := "wireless headphones";
                 search_results :=
                   PyList (map models.Product_json
                             [samples.headphones; samples.earbuds]);
                 answer := "The Sony WH-1000XM5 is the closest match.";
                 error := None |} eq_refl eq_refl) as [_ H2].
  destruct (H2 eq_refl) as (text & Htext & Hshown).
  rewrite Hshown. vm_compute in Htext. injection Htext as <-.
  vm_compute. reflexivity.
Defined.

Lemma results_lines_products repr ps : forall i acc,
  results_lines repr i (map models.Product_json ps) acc
  = Returned (acc ++ shapes.listing_lines i ps).
Proof.
  induction ps as [|p rest IH]; intros i acc.
  - cbn. rewrite string_app_nil_r. reflexivity.
  - cbn [map results_lines shapes.listing_lines].
    change (results_line repr i (models.Product_json p))
      with (Returned (shapes.listing_line i p)).
    cbn [obind]. rewrite IH, string_app_assoc. reflexivity.
Qed.

(** X10.  For products of the API's model, the result list is the headline
    with their number, then one line per product, numbered from 1 in the
    order of the set, with the title and the score as [.2f] writes it: with
    two decimals when the score is finite, and [inf], [-inf] or [nan] when
    it is not. *)
Theorem results_list_of_products repr ps :
  results_text repr (PyList (map models.Product_json ps))
  = Returned ("**Found " ++ str_of_nat (List.length ps)
              ++ " relevant products**" ++ nl ++ nl
              ++ shapes.listing_lines 1 ps)
  /\ forall p,
       In p ps ->
       (spec.is_finite (models.score p) = true ->
        spec.two_decimal_places (format_2f (models.score p)) = true)
       /\ (spec.is_finite (models.score p) = false ->
           spec.two_decimal_places (format_2f (models.score p)) = false
           /\ In (format_2f (models.score p)) ["inf"; "-inf"; "nan"]).
Proof.
  split.
  - unfold results_text. cbn [len iter obind].
    rewrite length_map, results_lines_products.
    rewrite !string_app_assoc. reflexivity.
  - intros p _. split; [apply format_2f_two_decimals|].
    destruct (models.score p) as [sg|sg| |sg m e]; try discriminate;
      intros _.
    + destruct sg; split; try reflexivity; cbn; auto.
    + split; [reflexivity|]. cbn; auto.
Qed.

(** A set of two, the second with a score that overflowed: its line reads
    [(Score: inf)]. *)
Lemma results_list_of_products_witness :
  results_text samples.simple_repr
    (PyList (map models.Product_json [samples.headphones; samples.overflowed]))
  = Returned ("**Found 2 relevant products**" ++ nl ++ nl
              ++ "1. Sony WH-1000XM5 Wireless Headphones (Score: 15.25)" ++ nl
              ++ "2. Studio Monitor Headphones (Score: inf)" ++ nl)
  /\ spec.two_decimal_places (format_2f (models.score samples.headphones))
     = true
  /\ spec.two_decimal_places (format_2f (models.score samples.overflowed))
     = false
  /\ In (format_2f (models.score samples.overflowed)) ["inf"; "-inf"; "nan"].
Proof.
  destruct (results_list_of_products samples.simple_repr
              [samples.headphones; samples.overflowed]) as [Htext Hscores].
  split; [rewrite Htext; vm_compute; reflexivity|].
  split.
  - apply (Hscores samples.headphones); [left; reflexivity|reflexivity].
  - apply (Hscores samples.overflowed);
      [right; left; reflexivity|reflexivity].
Defined.

(** ** The module-level Elasticsearch client *)

Import es_global.

Lemma step_wf g o : globals_wf g -> globals_wf (step g o).
Proof.
  unfold globals_wf. intros [Hc Hcur].
  destruct o; unfold step, get_es_client, close_es_client;
    destruct (_es_client g) as [c|] eqn:Hg;
    cbn [snd _es_client constructed closed].
  - rewrite Hg. auto.
  - auto.
  - destruct Hcur as [-> Hn].
    rewrite length_app. cbn [List.length]. rewrite Nat.add_1_r.
    split; [|exact Hn].
    rewrite seq_S. cbn [Nat.add]. rewrite <- Hc. reflexivity.
  - rewrite Hg. auto.
Qed.

Lemma steps_wf ops : forall g, globals_wf g -> globals_wf (fold_left step ops g).
Proof.
  induction ops as [|o ops IH]; intros g H; cbn [fold_left]; auto.
  apply IH, step_wf, H.
Qed.

(** X11.  Through any sequence of [get_es_client] and [close_es_client]
    from import on: no instance is closed twice, the current instance is
    not a closed one, and every instance constructed is either closed or
    the current one (at most one is open). *)
Theorem one_client_at_a_time ops :
  let g := fold_left step ops at_import in
  NoDup (closed g)
  /\ (forall c, _es_client g = Some c -> ~ In c (closed g))
  /\ constructed g
     = (List.length (closed g)
        + match _es_client g with Some _ => 1 | None => 0 end)%nat.
Proof.
  cbv zeta.
  assert (H : globals_wf (fold_left step ops at_import)).
  { apply steps_wf. split; reflexivity. }
  destruct H as [Hc Hcur]. split; [|split].
  - rewrite Hc. apply seq_NoDup.
  - intros c Hsome. rewrite Hsome in Hcur. destruct Hcur as [-> _].
    rewrite Hc at 2. rewrite in_seq. lia.
  - destruct (_es_client _); [destruct Hcur as [-> ->]|]; lia.
Qed.

Lemma serve_all_keeps es requests : forall g c,
  _es_client g = Some c -> serve_all es requests g = g.
Proof.
  unfold serve_all.
  induction requests as [|r rest IH]; intros g c Hc; cbn [fold_left];
    [reflexivity|].
  unfold search_route at 2, get_es_client. rewrite Hc. cbn [snd].
  apply (IH g c Hc).
Qed.

(** X12.  Over the life of the application (startup, any number of search
    requests, shutdown), whatever the cluster answers: startup constructs
    the one client, the requests reuse it, and shutdown closes it and
    resets the global. *)
Theorem application_life_uses_one_client repr es count requests :
  let started := snd (lifespan_startup repr es count at_import) in
  let served := serve_all es requests started in
  let stopped := snd (lifespan_shutdown served) in
  _es_client started = Some 0%nat
  /\ served = started
  /\ stopped = {| _es_client := None; constructed := 1; closed := [0%nat] |}.
Proof.
  cbv zeta.
  assert (Hs : snd (lifespan_startup repr es count at_import)
               = {| _es_client := Some 0%nat; constructed := 1; closed := [] |}).
  { unfold lifespan_startup, get_es_client, elasticsearch_client.is_connected,
      elasticsearch_client.index_exists.
    cbn [_es_client at_import constructed closed].
    destruct (elasticsearch_client.ping es) as [[|]|]; cbn [negb snd];
      try reflexivity;
      destruct (elasticsearch_client.indices_exists es) as [[|]|]; reflexivity. }
  rewrite Hs. split; [reflexivity|].
  rewrite (serve_all_keeps es requests
             {| _es_client := Some 0%nat; constructed := 1; closed := [] |}
             0%nat eq_refl).
  split; reflexivity.
Qed.

(** ** The search endpoint *)

(** X13.  A request that passes validation carries the caller's query
    unchanged, of 1 to 500 characters, and a size that is 10 when the field
    was left out, [None] when it was [null], and the given integer, within
    1..100, otherwise. *)
Theorem validated_request_is_within_bounds r request :
  models.SearchRequest.validate r = inr request ->
  models.SearchRequest.raw_query r
  = models.Given (models.SearchRequest.query request)
  /\ (1 <= char_count (models.SearchRequest.query request) <= 500)%nat
  /\ match models.SearchRequest.raw_size r with
     | models.Omitted => models.SearchRequest.size request = Some 10
     | models.Null => models.SearchRequest.size request = None
     | models.Given n =>
         models.SearchRequest.size request = Some n /\ 1 <= n <= 100
     end.
Proof.
  unfold models.SearchRequest.validate, models.SearchRequest.validate_query,
    models.SearchRequest.validate_size.
  destruct (models.SearchRequest.raw_query r) as [| |q]; cbn [fst snd].
  - destruct (models.SearchRequest.raw_size r) as [| |n];
      [| |destruct (n <? 1)%Z; [|destruct (100 <? n)%Z]]; discriminate.
  - destruct (models.SearchRequest.raw_size r) as [| |n];
      [| |destruct (n <? 1)%Z; [|destruct (100 <? n)%Z]]; discriminate.
  - destruct (char_count q <? 1)%nat eqn:E1.
    { destruct (models.SearchRequest.raw_size r) as [| |n];
        [| |destruct (n <? 1)%Z; [|destruct (100 <? n)%Z]]; discriminate. }
    destruct (500 <? char_count q)%nat eqn:E2.
    { destruct (models.SearchRequest.raw_size r) as [| |n];
        [| |destruct (n <? 1)%Z; [|destruct (100 <? n)%Z]]; discriminate. }
    apply Nat.ltb_ge in E1, E2.
    destruct (models.SearchRequest.raw_size r) as [| |n].
    + intros [= <-]. cbn. repeat split; auto.
    + intros [= <-]. cbn. repeat split; auto.
    + destruct (n <? 1)%Z eqn:E3; [discriminate|].
      destruct (100 <? n)%Z eqn:E4; [discriminate|].
      apply Z.ltb_ge in E3, E4.
      intros [= <-]. cbn. repeat split; auto; lia.
Qed.

(** The request of 300 two-byte characters, size left out: 600 bytes, and
    within the bounds. *)
Lemma validated_request_is_within_bounds_witness :
  models.SearchRequest.validate more_samples.accented_request
  = inr {| models.SearchRequest.query := more_samples.accented_query;
           models.SearchRequest.size := Some 10 |}
  /\ String.length more_samples.accented_query = 600%nat
  /\ (1 <= char_count more_samples.accented_query <= 500)%nat.
Proof.
  split; [vm_compute; reflexivity|].
  split; [vm_compute; reflexivity|].
  exact (proj1 (proj2 (validated_request_is_within_bounds
                         more_samples.accented_request
                         {| models.SearchRequest.query := more_samples.accented_query;
                            models.SearchRequest.size := Some 10 |}
                         eq_refl))).
Defined.




(** ** The indexing script *)

Module index_products_facts.

Import script_io index_products.

Lemma find_csv_cases w : forall locations,
  (exists before path after_,
     locations = (before ++ path :: after_)%list
     /\ path_exists w path = true
     /\ (forall q, In q before -> path_exists w q = false)
     /\ find_csv w locations
        = (Returned (Some path), map PathExists (before ++ [path])%list))
  \/ ((forall q, In q locations -> path_exists w q = false)
      /\ find_csv w locations = (Returned None, map PathExists locations)).
Proof.
  induction locations as [|p rest IH].
  - right. split; [intros q []|reflexivity].
  - cbn [find_csv]. unfold bind, call.
    destruct (path_exists w p) eqn:Hp.
    + left. exists [], p, rest. cbn. repeat split; auto. intros q [].
    + destruct IH as [(before & path & after_ & -> & Hpath & Hbefore & Hfind)
                     | [Hnone Hfind]].
      * left. exists (p :: before), path, after_.
        rewrite Hfind. cbn. repeat split; auto.
        intros q [<-|Hq]; auto.
      * right. rewrite Hfind. cbn. split; auto.
        intros q [<-|Hq]; auto.
Qed.

Lemma main_eq w :
  main w =
  match find_csv w csv_locations with
  | (Returned None, probes) => (Raised (SystemExit 1), probes)
  | (Returned (Some csv_path), probes) =>
      match ping w with
      | Returned true =>
          let (o, t) := connected_main w csv_path in
          (o, (probes ++ EsPing :: t)%list)
      | Returned false => (Raised (SystemExit 1), (probes ++ [EsPing])%list)
      | Raised e => (Raised e, (probes ++ [EsPing])%list)
      end
  | (Raised e, probes) => (Raised e, probes)
  end.
Proof.
  unfold main. unfold bind at 1.
  destruct (find_csv w csv_locations) as [[[p|]|e] probes]; try reflexivity.
  - unfold bind at 1. unfold call at 1.
    destruct (ping w) as [[|]|e]; cbn [negb].
    + fold (connected_main w p).
      destruct (connected_main w p) as [o t]. reflexivity.
    + unfold lift. rewrite app_nil_r. reflexivity.
    + reflexivity.
  - unfold lift. rewrite app_nil_r. reflexivity.
Qed.

Lemma probes_change_nothing (paths : list string) c :
  In c (map PathExists paths) -> changes_cluster c = false.
Proof.
  rewrite in_map_iff. intros (p & <- & _). reflexivity.
Qed.

(** X15.  The script deletes or creates an index, or bulk-indexes, only
    when one of the CSV locations exists and the cluster answered [ping]
    with true. *)
Theorem cluster_untouched_unless_ready w c :
  In c (snd (main w)) ->
  changes_cluster c = true ->
  ping w = Returned true
  /\ exists path, In path csv_locations /\ path_exists w path = true.
Proof.
  rewrite main_eq. intros Hin Hc.
  destruct (find_csv_cases w csv_locations)
    as [(before & path & after_ & Hloc & Hpath & _ & Hfind) | [_ Hfind]];
    rewrite Hfind in Hin.
  - assert (Hprobe : forall c', In c' (map PathExists (before ++ [path])%list
                                       ++ [EsPing])%list ->
                                changes_cluster c' = false).
    { intros c' H. apply in_app_or in H. destruct H as [H|[<-|[]]];
        [eapply probes_change_nothing; eauto | reflexivity]. }
    destruct (ping w) as [[|]|e].
    + split; [reflexivity|]. exists path. split; [|exact Hpath].
      rewrite Hloc. apply in_or_app. right. left. reflexivity.
    + cbn [snd] in Hin. rewrite (Hprobe c Hin) in Hc. discriminate.
    + cbn [snd] in Hin. rewrite (Hprobe c Hin) in Hc. discriminate.
  - cbn [snd] in Hin. rewrite (probes_change_nothing _ _ Hin) in Hc.
    discriminate.
Qed.

Lemma find_csv_first w before path after_ :
  csv_locations = (before ++ path :: after_)%list ->
  (forall q, In q before -> path_exists w q = false) ->
  path_exists w path = true ->
  find_csv w csv_locations
  = (Returned (Some path), map PathExists (before ++ [path])%list).
Proof.
  intros Hloc Hbefore Hpath. rewrite Hloc. clear Hloc.
  induction before as [|b before IH]; cbn [app find_csv map].
  - unfold bind, call. rewrite Hpath. reflexivity.
  - unfold bind, call. rewrite (Hbefore b (or_introl eq_refl)).
    rewrite IH; [reflexivity|]. intros q Hq. apply Hbefore. right. exact Hq.
Qed.

(** X16.  When none of the three locations holds the CSV file, the script
    exits with status 1 after probing the three of them, in order, and
    nothing else; when the file is found and [ping] answers false, it exits
    with status 1 right after the ping. *)
Theorem exits_when_not_ready w :
  ((forall q, In q csv_locations -> path_exists w q = false) ->
   main w = (Raised (SystemExit 1), map PathExists csv_locations))
  /\ (forall before path after_,
        csv_locations = (before ++ path :: after_)%list ->
        (forall q, In q before -> path_exists w q = false) ->
        path_exists w path = true ->
        ping w = Returned false ->
        main w = (Raised (SystemExit 1),
                  (map PathExists (before ++ [path]) ++ [EsPing])%list)).
Proof.
  split.
  - intros Hnone. rewrite main_eq.
    destruct (find_csv_cases w csv_locations)
      as [(before & path & after_ & Hloc & Hpath & _ & Hfind) | [_ Hfind]].
    + rewrite (Hnone path) in Hpath; [discriminate|].
      rewrite Hloc. apply in_or_app. right. left. reflexivity.
    + rewrite Hfind. reflexivity.
  - intros before path after_ Hloc Hbefore Hpath Hping. rewrite main_eq.
    rewrite (find_csv_first w before path after_ Hloc Hbefore Hpath), Hping.
    reflexivity.
Qed.

(** X17.  The index is deleted (when it exists) and created again before
    the CSV file is opened: when loading the products raises, the script
    stops with that exception after the index was recreated, and nothing
    was indexed. *)
Theorem index_recreated_before_csv_is_read w before path after_ existed e :
  csv_locations = (before ++ path :: after_)%list ->
  (forall q, In q before -> path_exists w q = false) ->
  path_exists w path = true ->
  ping w = Returned true ->
  indices_exists w = Returned existed ->
  (existed = true -> indices_delete w = Returned tt) ->
  indices_create w = Returned tt ->
  fst (load_products w path) = Raised e ->
  main w
  = (Raised e,
     (map PathExists (before ++ [path])
      ++ [EsPing; IndicesExists INDEX_NAME]
      ++ (if existed then [IndicesDelete INDEX_NAME] else [])
      ++ [IndicesCreate INDEX_NAME mapping; OpenCsv path])%list).
Proof.
  intros Hloc Hbefore Hpath Hping Hex Hdel Hcreate Hload.
  rewrite main_eq, (find_csv_first w before path after_ Hloc Hbefore Hpath), Hping.
  assert (Hcm : connected_main w path
                = (Raised e,
                   ([IndicesExists INDEX_NAME]
                    ++ (if existed then [IndicesDelete INDEX_NAME] else [])
                    ++ [IndicesCreate INDEX_NAME mapping; OpenCsv path])%list)).
  { unfold connected_main, create_index, call, ret.
    unfold bind at 1. unfold bind at 1. rewrite Hex.
    assert (Hl : load_products w path = (Raised e, [OpenCsv path])).
    { revert Hload. unfold load_products, bind, call, lift, ret.
      destruct (open_csv w path) as [f|e']; cbn.
      - destruct (load_rows w (rows f) []) as [ps|e']; cbn.
        + destruct (broken f); cbn; [intros [= ->]; reflexivity | discriminate].
        + intros [= ->]. reflexivity.
      - intros [= ->]. reflexivity. }
    destruct existed.
    - rewrite (Hdel eq_refl). unfold bind at 2. unfold bind at 2.
      rewrite Hcreate. unfold bind at 2. unfold bind at 1.
      rewrite Hl. reflexivity.
    - unfold bind at 2. unfold bind at 2.
      rewrite Hcreate. unfold bind at 2. unfold bind at 1.
      rewrite Hl. reflexivity. }
  rewrite Hcm. destruct existed; reflexivity.
Qed.

Lemma load_rows_spec w : forall rs acc products,
  load_rows w rs acc = Returned products ->
  exists ps, products = (acc ++ ps)%list
             /\ Forall2 (fun r p => product_of_row w r = Returned p) rs ps.
Proof.
  induction rs as [|r rest IH]; intros acc products H.
  - injection H as <-. exists []. rewrite app_nil_r. split; constructor.
  - cbn [load_rows] in H.
    destruct (product_of_row w r) as [p|e] eqn:Hp;
      cbn [chainlit_app.obind] in H; [|discriminate].
    destruct (IH _ _ H) as (ps & -> & Hps).
    exists (p :: ps). rewrite <- app_assoc. split; [reflexivity|].
    constructor; assumption.
Qed.

Lemma product_action w r p :
  product_of_row w r = Returned p ->
  exists a, action_of p = Returned a /\ action_of_row w r a.
Proof.
  unfold product_of_row, row_getitem.
  destruct (row_get r "id") as [idf|] eqn:Hid;
    cbn [chainlit_app.obind]; [|discriminate].
  destruct (int_ w idf) as [z|e] eqn:Hz; cbn [chainlit_app.obind];
    [|discriminate].
  destruct (row_get r "TITLE") as [t|] eqn:Ht;
    cbn [chainlit_app.obind]; [|discriminate].
  destruct (row_get r "DESCRIPTION") as [d|] eqn:Hd;
    cbn [chainlit_app.obind]; [|discriminate].
  intros [= <-]. exists (row_action z t d). split; [reflexivity|].
  exists idf, z, t, d. auto.
Qed.

Lemma build_actions_spec w : forall rs ps acc,
  Forall2 (fun r p => product_of_row w r = Returned p) rs ps ->
  exists actions,
    build_actions ps acc = Returned (acc ++ actions)%list
    /\ Forall2 (action_of_row w) rs actions.
Proof.
  induction rs as [|r rest IH]; intros ps acc H; inversion H; subst.
  - exists []. rewrite app_nil_r. split; constructor.
  - destruct (product_action w r y H2) as (a & Ha & Hra).
    cbn [build_actions]. rewrite Ha. cbn [chainlit_app.obind].
    destruct (IH l' (acc ++ [a])%list H4) as (actions & Hb & Hact).
    exists (a :: actions). rewrite Hb, <- app_assoc. split; [reflexivity|].
    constructor; assumption.
Qed.

(** X18.  When [load_products] returns, the file was read to its end
    without error, and [index_products] on its result makes one [bulk] call
    with exactly one action per row, in the order of the file: [_id] and
    [id] are the row's [id] read as an integer, [title] and [description]
    its [TITLE] and [DESCRIPTION] columns; it returns the success count of
    [bulk]. *)
Theorem every_row_becomes_one_action w csv_path products t :
  load_products w csv_path = (Returned products, t) ->
  exists f actions,
    open_csv w csv_path = Returned f
    /\ broken f = None
    /\ Forall2 (action_of_row w) (rows f) actions
    /\ snd (index_products w products) = [Bulk actions true]
    /\ (forall success failed,
          bulk w actions = Returned (success, failed) ->
          fst (index_products w products) = Returned success).
Proof.
  unfold load_products, bind, call, lift, ret.
  destruct (open_csv w csv_path) as [f|e]; [|discriminate].
  destruct (load_rows w (rows f) []) as [ps|e] eqn:Hload; [|discriminate].
  destruct (broken f) as [e|] eqn:Hb; [discriminate|].
  intros [= <- _].
  destruct (load_rows_spec w _ _ _ Hload) as (ps' & -> & Hps).
  destruct (build_actions_spec w _ _ [] Hps) as (actions & Hbuild & Hact).
  cbn [app] in *.
  exists f, actions. repeat split; auto.
  - unfold index_products, bind, call, lift, ret. rewrite Hbuild.
    destruct (bulk w actions) as [[success failed]|e]; reflexivity.
  - intros success failed Hbulk.
    unfold index_products, bind, call, lift, ret. rewrite Hbuild, Hbulk.
    reflexivity.
Qed.

(** ** What the script's calls can be *)

Lemma bind_Forall {A B} (P : io_call -> Prop) (m : IO io_call A)
    (k : A -> IO io_call B) :
  Forall P (snd m) ->
  (forall a, Forall P (snd (k a))) ->
  Forall P (snd (bind m k)).
Proof.
  intros Hm Hk. unfold bind. destruct m as [[a|e] t]; cbn [snd] in *.
  - specialize (Hk a). destruct (k a) as [o t']. cbn [snd] in *.
    apply Forall_app. split; assumption.
  - exact Hm.
Qed.

Lemma connected_main_opens w path :
  Forall (opens_only path) (snd (connected_main w path)).
Proof.
  unfold connected_main, create_index, load_products, index_products.
  repeat first
    [ apply bind_Forall; [|intros ?]
    | match goal with
      | |- Forall _ (snd (if ?b then _ else _)) => destruct b
      | |- Forall _ (snd (match ?x with _ => _ end)) => destruct x
      | |- Forall _ (snd (let (_, _) := ?x in _)) => destruct x
      end
    | (repeat constructor; cbn; auto; fail) ].
Qed.

(** X19.  The only file the script opens is the first of the three
    locations that exists. *)
Theorem only_the_first_existing_file_is_opened w path :
  In (OpenCsv path) (snd (main w)) ->
  exists before after_,
    csv_locations = (before ++ path :: after_)%list
    /\ path_exists w path = true
    /\ (forall q, In q before -> path_exists w q = false).
Proof.
  rewrite main_eq.
  destruct (find_csv_cases w csv_locations)
    as [(before & p & after_ & Hloc & Hpath & Hbefore & Hfind) | [_ Hfind]];
    rewrite Hfind.
  - assert (Hprobe : ~ In (OpenCsv path)
                        (map PathExists (before ++ [p])%list)).
    { rewrite in_map_iff. intros (q & Hq & _). discriminate. }
    assert (Hp : In (OpenCsv path)
                   (map PathExists (before ++ [p]) ++ [EsPing])%list -> False).
    { intros H. apply in_app_or in H. destruct H as [H|[H|[]]];
        [contradiction | discriminate]. }
    destruct (ping w) as [[|]|e]; cbn [snd]; try (intros H; destruct (Hp H)).
    pose proof (connected_main_opens w p) as Hcm.
    destruct (connected_main w p) as [o t]. cbn [snd] in *.
    intros Hin. apply in_app_or in Hin. destruct Hin as [Hin|[Hin|Hin]];
      [contradiction | discriminate |].
    rewrite Forall_forall in Hcm. specialize (Hcm _ Hin). cbn in Hcm. subst p.
    exists before, after_. auto.
  - cbn [snd]. rewrite in_map_iff. intros (q & Hq & _). discriminate.
Qed.

Lemma cluster_untouched_unless_ready_witness :
  ping (sample_world good_rows true) = Returned true
  /\ exists path, In path csv_locations
                  /\ path_exists (sample_world good_rows true) path = true.
Proof.
  apply (cluster_untouched_unless_ready (sample_world good_rows true)
           (IndicesDelete INDEX_NAME)).
  - vm_compute. do 4 right. left. reflexivity.
  - reflexivity.
Defined.

Lemma exits_when_not_ready_witness :
  main no_csv_world = (Raised (SystemExit 1), map PathExists csv_locations)
  /\ main (sample_world good_rows false)
     = (Raised (SystemExit 1),
        [PathExists "../data/amazon_product_reviews_1000_utf8.csv";
         PathExists "/data/amazon_product_reviews_1000_utf8.csv";
         EsPing]).
Proof.
  split.
  - apply (proj1 (exits_when_not_ready no_csv_world)). reflexivity.
  - apply (proj2 (exits_when_not_ready (sample_world good_rows false))
             ["../data/amazon_product_reviews_1000_utf8.csv"]
             "/data/amazon_product_reviews_1000_utf8.csv"
             ["data/amazon_product_reviews_1000_utf8.csv"]);
      try reflexivity.
    intros q [<-|[]]. reflexivity.
Defined.

Lemma index_recreated_before_csv_is_read_witness :
  exists e,
    main (sample_world bad_rows true)
    = (Raised e,
       [PathExists "../data/amazon_product_reviews_1000_utf8.csv";
        PathExists "/data/amazon_product_reviews_1000_utf8.csv";
        EsPing; IndicesExists INDEX_NAME; IndicesDelete INDEX_NAME;
        IndicesCreate INDEX_NAME mapping;
        OpenCsv "/data/amazon_product_reviews_1000_utf8.csv"]).
Proof.
  eexists.
  apply (index_recreated_before_csv_is_read (sample_world bad_rows true)
           ["../data/amazon_product_reviews_1000_utf8.csv"]
           "/data/amazon_product_reviews_1000_utf8.csv"
           ["data/amazon_product_reviews_1000_utf8.csv"] true);
    try reflexivity.
  intros q [<-|[]]. reflexivity.
Defined.

Lemma every_row_becomes_one_action_witness :
  exists f actions,
    open_csv (sample_world good_rows true)
      "/data/amazon_product_reviews_1000_utf8.csv" = Returned f
    /\ broken f = None
    /\ Forall2 (action_of_row (sample_world good_rows true)) (rows f) actions
    /\ snd (index_products (sample_world good_rows true)
              [PyDict [("id", PyInt 1);
                       ("title", PyStr "Sony WH-1000XM5 Wireless Headphones");
                       ("description",
                        PyStr "Premium noise-canceling wireless headphones")];
               PyDict [("id", PyInt 2); ("title", PyStr "Bluetooth Earbuds");
                       ("description", PyNone)]])
       = [Bulk actions true]
    /\ (forall success failed,
          bulk (sample_world good_rows true) actions
          = Returned (success, failed) ->
          fst (index_products (sample_world good_rows true)
                 [PyDict [("id", PyInt 1);
                          ("title", PyStr "Sony WH-1000XM5 Wireless Headphones");
                          ("description",
                           PyStr "Premium noise-canceling wireless headphones")];
                  PyDict [("id", PyInt 2); ("title", PyStr "Bluetooth Earbuds");
                          ("description", PyNone)]])
          = Returned success).
Proof.
  apply (every_row_becomes_one_action (sample_world good_rows true)
           "/data/amazon_product_reviews_1000_utf8.csv" _
           [OpenCsv "/data/amazon_product_reviews_1000_utf8.csv"]).
  reflexivity.
Defined.

Lemma only_the_first_existing_file_is_opened_witness :
  exists before after_,
    csv_locations
    = (before ++ "/data/amazon_product_reviews_1000_utf8.csv" :: after_)%list
    /\ path_exists (sample_world good_rows true)
         "/data/amazon_product_reviews_1000_utf8.csv" = true
    /\ (forall q, In q before ->
                  path_exists (sample_world good_rows true) q = false).
Proof.
  apply (only_the_first_existing_file_is_opened (sample_world good_rows true)).
  vm_compute. do 6 right. left. reflexivity.
Defined.
End index_products_facts.

(** ** Indexing with embeddings *)

Module index_products_with_embeddings_facts.

Import script_io index_products_with_embeddings.

(** What [entries_of] gives when it returns. *)
Lemma entries_of_returned w product entries t :
  entries_of w product = (Returned entries, t) ->
  exists action text index_line doc,
    embedded_action w product action text
    /\ t = [Encode text]
    /\ entries = [index_line; doc]
    /\ forall rest acc,
         pair_actions (index_line :: doc :: rest) acc
         = pair_actions rest (acc ++ [action])%list.
Proof.
  unfold entries_of, bind, call, lift, ret.
  destruct (getitem product "title") as [title|e] eqn:Ht; [|discriminate].
  destruct (getitem product "description") as [description|e] eqn:Hd;
    [|discriminate].
  destruct (encode w _) as [embedding|e] eqn:Henc; [|discriminate].
  destruct (getitem product "id") as [id|e] eqn:Hid; [|discriminate].
  cbn [app]. intros [= <- <-].
  exists (PyDict [("_index", PyStr INDEX_NAME); ("_id", id);
                  ("_source",
                   PyDict [("id", id); ("title", title);
                           ("description", description);
                           ("embedding", embedding)])]),
    (str (repr w) title ++ " " ++ str (repr w) description),
    (PyDict [("index", PyDict [("_index", PyStr INDEX_NAME); ("_id", id)])]),
    (PyDict [("id", id); ("title", title); ("description", description);
             ("embedding", embedding)]).
  split; [|split; [reflexivity|split; [reflexivity|]]].
  - exists id, title, description, embedding. repeat split; auto.
  - intros rest acc. reflexivity.
Qed.

Lemma fill_spec w : forall products acc bulk_data t,
  fill w products acc = (Returned bulk_data, t) ->
  exists pairs actions texts,
    bulk_data = (acc ++ pairs)%list
    /\ t = map Encode texts
    /\ Forall2 (fun pa text => embedded_action w (fst pa) (snd pa) text)
         (combine products actions) texts
    /\ List.length actions = List.length products
    /\ forall done, pair_actions pairs done = Returned (done ++ actions)%list.
Proof.
  induction products as [|product rest IH]; intros acc bulk_data t H.
  - injection H as <- <-. exists [], [], []. rewrite app_nil_r.
    repeat split; try constructor. intros done. rewrite app_nil_r. reflexivity.
  - cbn [fill] in H. unfold bind at 1 in H.
    destruct (entries_of w product) as [[entries|e] t1] eqn:He; [|discriminate].
    destruct (fill w rest (acc ++ entries)%list) as [o t2] eqn:Hf.
    injection H as -> <-.
    destruct (entries_of_returned w product entries t1 He)
      as (action & text & line & doc & Hact & -> & -> & Hpair).
    destruct (IH _ _ _ Hf) as (pairs & actions & texts & -> & -> & Hall & Hlen & Hp).
    exists (line :: doc :: pairs), (action :: actions), (text :: texts).
    rewrite <- app_assoc. cbn [app map combine List.length].
    split; [reflexivity|]. split; [reflexivity|].
    split; [constructor; assumption|].
    split; [rewrite Hlen; reflexivity|].
    intros done. rewrite Hpair, Hp, <- app_assoc. reflexivity.
Qed.

(** X20.  Whenever the first loop of [index_products] completes, the
    second loop cannot fail: pairing the entries of [bulk_data] gives one
    action per product, in order, whose [_id] is the product's id and whose
    [_source] is the product with its embedding, the embedding of the text
    [title description]; the embeddings are requested in that order, before
    the one [bulk] call. *)
Theorem pairing_gives_one_action_per_product w products bulk_data t :
  fill w products [] = (Returned bulk_data, t) ->
  exists actions texts,
    pair_actions bulk_data [] = Returned actions
    /\ List.length actions = List.length products
    /\ Forall2 (fun pa text => embedded_action w (fst pa) (snd pa) text)
         (combine products actions) texts
    /\ snd (index_products w products)
       = (map Encode texts ++ [Bulk actions true])%list.
Proof.
  intros H.
  destruct (fill_spec w products [] bulk_data t H)
    as (pairs & actions & texts & -> & -> & Hall & Hlen & Hp).
  cbn [app] in *. exists actions, texts.
  specialize (Hp []). cbn [app] in Hp.
  repeat split; auto.
  unfold index_products. unfold bind at 1. rewrite H.
  unfold bind, lift, call, ret. rewrite Hp.
  destruct (bulk w actions) as [[success failed]|e]; cbn;
    rewrite ?app_nil_r; reflexivity.
Qed.

Lemma pairing_gives_one_action_per_product_witness :
  exists actions texts,
    pair_actions
      (fst_returned (fill sample_world sample_products [])) [] = Returned actions
    /\ List.length actions = List.length sample_products
    /\ Forall2 (fun pa text =>
                  embedded_action sample_world (fst pa) (snd pa) text)
         (combine sample_products actions) texts
    /\ snd (index_products sample_world sample_products)
       = (map Encode texts ++ [Bulk actions true])%list.
Proof.
  apply (pairing_gives_one_action_per_product sample_world sample_products
           _ [Encode "Bluetooth Earbuds Compact wireless earbuds"]).
  reflexivity.
Defined.

End index_products_with_embeddings_facts.
